(** * blueprint.py: the declarative-config-to-command compiler

    A shallow embedding of [blueprint.py].  The configuration tree produced
    by [json.load] is an inductive type, the two effects of the program
    ([print] and [subprocess.run]) are recorded in a trace, exceptions are
    an error result, and the process-wide [DRY_RUN] flag is passed
    explicitly so that both execution modes can be stated. *)

From Stdlib Require Import ZArith List String Ascii Bool Lia.
From Stdlib Require Import DecimalString PrimFloat.
Import ListNotations.

Set Warnings "-register-all".
Local Open Scope string_scope.
Local Open Scope Z_scope.

(** ** Values *)

(** What [json.load] returns: [None], [bool], [int], [float], [str], [list]
    and [dict].  A [dict] keeps its insertion order, so it is an association
    list; a character of a [str] is a code point below 256. *)
Inductive json : Type :=
| JNull
| JBool (b : bool)
| JInt (n : Z)
| JFloat (f : float)
| JStr (s : string)
| JList (l : list json)
| JDict (d : list (string * json)).

(** The classes [isinstance] is asked about. *)
Inductive pytype : Type :=
| TNone | TBool | TInt | TFloat | TStr | TList | TDict.

Definition type_of (v : json) : pytype :=
  match v with
  | JNull => TNone
  | JBool _ => TBool
  | JInt _ => TInt
  | JFloat _ => TFloat
  | JStr _ => TStr
  | JList _ => TList
  | JDict _ => TDict
  end.

(** [type.__name__] *)
Definition type_name (t : pytype) : string :=
  match t with
  | TNone => "NoneType"
  | TBool => "bool"
  | TInt => "int"
  | TFloat => "float"
  | TStr => "str"
  | TList => "list"
  | TDict => "dict"
  end.

Definition pytype_eqb (a b : pytype) : bool :=
  match a, b with
  | TNone, TNone | TBool, TBool | TInt, TInt | TFloat, TFloat
  | TStr, TStr | TList, TList | TDict, TDict => true
  | _, _ => false
  end.

(** [issubclass]: every class is its own subclass, and [bool] is a subclass
    of [int]. *)
Definition issubclass (a b : pytype) : bool :=
  pytype_eqb a b || (pytype_eqb a TBool && pytype_eqb b TInt).

Definition isinstance (v : json) (t : pytype) : bool :=
  issubclass (type_of v) t.

(** Truth value of an object, as tested by [if x := ...:]. *)
Definition truthy (v : json) : bool :=
  match v with
  | JNull => false
  | JBool b => b
  | JInt n => negb (n =? 0)
  | JFloat f => negb (PrimFloat.eqb f PrimFloat.zero)
  | JStr s => negb (String.eqb s "")
  | JList l => match l with [] => false | _ => true end
  | JDict d => match d with [] => false | _ => true end
  end.

(** ** Strings *)

(** [sep.join(parts)] *)
Fixpoint join (sep : string) (parts : list string) : string :=
  match parts with
  | [] => ""
  | [p] => p
  | p :: rest => p ++ sep ++ join sep rest
  end.

(** [str(n)] for an [int]. *)
Definition str_int (n : Z) : string :=
  NilZero.string_of_int (Z.to_int n).

Definition hex_digit (n : N) : ascii :=
  match n with
  | 0%N => "0" | 1%N => "1" | 2%N => "2" | 3%N => "3"
  | 4%N => "4" | 5%N => "5" | 6%N => "6" | 7%N => "7"
  | 8%N => "8" | 9%N => "9" | 10%N => "a" | 11%N => "b"
  | 12%N => "c" | 13%N => "d" | 14%N => "e" | _ => "f"
  end%char.

(** One character of [json.dumps(s)] with [ensure_ascii=True]: the short
    escapes, the printable range [' '..'~'] as it is, [\u00xx] for the
    rest. *)
Definition escape_char (c : ascii) : string :=
  let n := N_of_ascii c in
  if (n =? 34)%N then "\" ++ String c ""
  else if (n =? 92)%N then "\\"
  else if (n =? 10)%N then "\n"
  else if (n =? 13)%N then "\r"
  else if (n =? 9)%N then "\t"
  else if (n =? 12)%N then "\f"
  else if (n =? 8)%N then "\b"
  else if ((32 <=? n) && (n <=? 126))%N then String c ""
  else "\u00" ++ String (hex_digit (n / 16)) (String (hex_digit (n mod 16)) "").

Fixpoint escape_string (s : string) : string :=
  match s with
  | EmptyString => ""
  | String c r => escape_char c ++ escape_string r
  end.

(** The double quote. *)
Definition dquote : ascii := "034"%char.

(** [json.dumps(s)] for a [str]. *)
Definition dumps_str (s : string) : string :=
  String dquote (escape_string s ++ String dquote "").

(** The line terminator written by [print] and meant by [\n] in the
    source's string literals. *)
Definition nl : string := String "010"%char "".

(** A text with no line terminator in it. *)
Definition one_line (s : string) : bool :=
  negb (existsb (Ascii.eqb "010"%char) (list_ascii_of_string s)).

(** ** Global configuration *)

(** The value the source gives the process-wide flag.  The handlers below
    take the flag as an argument, so that the apply mode can be stated
    too. *)
Definition DRY_RUN : bool := true.

(** ** Effects *)

(** What the operating system answers to a process launch: the child ran
    and left an exit status, or it could not be started at all. *)
Inductive proc_outcome : Type :=
| Exited (returncode : Z)
| StartFailed.

(** The observable events of a run, in program order: text written to
    standard output, and a launch of [cmd] through [subprocess.run] with the
    text fed to its standard input and the value of [check]. *)
Inductive event : Type :=
| Print (text : string)
| Run (cmd : list string) (input : option string) (check : bool).

Inductive exn : Type :=
| TypeError (msg : string)
| AttributeError (msg : string)
| CalledProcessError (returncode : Z) (cmd : list string)
| OSError (cmd : list string).

Inductive res (A : Type) : Type :=
| Ok (a : A)
| Raise (e : exn).
Arguments Ok {A} a.
Arguments Raise {A} e.

Definition is_run (e : event) : bool :=
  match e with Run _ _ _ => true | Print _ => false end.

(** The commands launched in a trace, in order. *)
Fixpoint launched (t : list event) : list (list string) :=
  match t with
  | [] => []
  | Run cmd _ _ :: r => cmd :: launched r
  | Print _ :: r => launched r
  end.

(** The texts printed in a trace, in order. *)
Fixpoint printed (t : list event) : list string :=
  match t with
  | [] => []
  | Print s :: r => s :: printed r
  | Run _ _ _ :: r => printed r
  end.

(** The interpreter's exit status: 0 on a normal return, 1 when an
    exception reaches the top level. *)
Definition exit_status {A : Type} (r : res A) : Z :=
  match r with Ok _ => 0 | Raise _ => 1 end.

(** The three components of the outcome of a run: what it returned or
    raised, the world it left, the events it produced. *)
Definition result {W A : Type} (x : res A * W * list event) : res A :=
  fst (fst x).
Definition final {W A : Type} (x : res A * W * list event) : W :=
  snd (fst x).
Definition trace {W A : Type} (x : res A * W * list event) : list event :=
  snd x.

(** A world in which every launch succeeds, one in which [brew] is present
    but the cleanup exits with status 1, and one in which the second launch
    cannot be started (the state counts the launches so far). *)
Definition spawn_ok (w : nat) (cmd : list string) (input : option string)
  : proc_outcome * nat := (Exited 0, S w).

Definition spawn_cleanup_exit1 (w : nat) (cmd : list string)
  (input : option string) : proc_outcome * nat :=
  (match w with O => Exited 0 | _ => Exited 1 end, S w).

Definition spawn_second_missing (w : nat) (cmd : list string)
  (input : option string) : proc_outcome * nat :=
  (match w with O => Exited 0 | _ => StartFailed end, S w).

(** A stand-in for [float.__repr__] on the few floats of the examples. *)
Definition repr_sample (f : float) : string :=
  if PrimFloat.eqb f 3.5%float then "3.5" else "0.0".

(** ** Sample configurations *)

(** A text between double quotes. *)
Definition quoted (s : string) : string :=
  String dquote (s ++ String dquote "").

(** The homebrew configuration of the specification's example, and one
    whose store identifier is a string. *)
Definition homebrew_example_items : list (string * json) :=
  [("taps", JList [JStr "a/b"]); ("brews", JList [JStr "x"]);
   ("casks", JList []); ("mas_apps", JDict [("Foo", JInt 123)])].

Definition homebrew_example : json := JDict homebrew_example_items.

Definition homebrew_example_manifest : string :=
  "tap " ++ quoted "a/b" ++ nl ++ "brew " ++ quoted "x" ++ nl
    ++ "mas " ++ quoted "Foo" ++ ", id: 123".

Definition homebrew_string_id : json :=
  JDict [("mas_apps", JDict [("Foo", JStr "123")])].

(** System defaults with one entry of each supported kind. *)
Definition defaults_example_items : list (string * json) :=
  [("com.example.app",
    JDict [("flag", JBool true); ("ratio", JFloat 3.5%float)]);
   ("com.example.dock", JDict [("size", JInt 48); ("side", JStr "left")])].

(** System defaults whose second entry is a sequence. *)
Definition defaults_unsupported_items : list (string * json) :=
  [("com.example.app",
    JDict [("first", JInt 1); ("bad", JList [JInt 2]); ("last", JInt 3)])].

(** System defaults whose second namespace is not a mapping. *)
Definition defaults_misshapen_items : list (string * json) :=
  [("com.example.app", JDict [("first", JInt 1)]); ("com.example.dock", JInt 5)].

(** A configuration whose [system] is an empty sequence. *)
Definition config_system_empty_list : json := JDict [("system", JList [])].

(** A configuration that asks for the homebrew example only. *)
Definition config_homebrew_only : json :=
  JDict [("packages", JDict [("homebrew", homebrew_example)])].

Section Blueprint.

(** [float.__repr__], the shortest decimal string that reads back as the
    same float: a builtin of the interpreter, taken as given. *)
Variable float_repr : float -> string.

(** The machine the program runs on: its state, and what a launch of a
    command with a standard input does to it. *)
Variable World : Type.
Variable spawn : World -> list string -> option string -> proc_outcome * World.

(** ** The monad of the program: world in, result, world and trace out *)

Definition M (A : Type) : Type := World -> res A * World * list event.

Definition ret {A : Type} (a : A) : M A := fun w => (Ok a, w, []).

Definition raise {A : Type} (e : exn) : M A := fun w => (Raise e, w, []).

Definition bind {A B : Type} (m : M A) (k : A -> M B) : M B :=
  fun w =>
    match m w with
    | (Ok a, w1, t1) =>
        match k a w1 with
        | (r, w2, t2) => (r, w2, (t1 ++ t2)%list)
        end
    | (Raise e, w1, t1) => (Raise e, w1, t1)
    end.

Notation "x <- m ;; k" := (bind m (fun x => k))
  (at level 61, m at next level, right associativity).
Notation "m ;; k" := (bind m (fun _ => k))
  (at level 61, right associativity).

(** [print] of several arguments: the arguments separated by a space,
    then a newline. *)
Definition print (args : list string) : M unit :=
  fun w => (Ok tt, w, [Print (join " " args ++ nl)]).

(** [subprocess.run(cmd, input=..., check=...)]: a command that cannot be
    started raises whatever [check] is; a non-zero exit status raises only
    under [check=True]. *)
Definition subprocess_run (cmd : list string) (input : option string)
  (check : bool) : M unit :=
  fun w =>
    match spawn w cmd input with
    | (StartFailed, w') => (Raise (OSError cmd), w', [Run cmd input check])
    | (Exited rc, w') =>
        if check && negb (rc =? 0)
        then (Raise (CalledProcessError rc cmd), w', [Run cmd input check])
        else (Ok tt, w', [Run cmd input check])
    end.

(** ** Builtins on values *)

Definition no_attribute {A : Type} (v : json) (attr : string) : M A :=
  raise (AttributeError
    ("'" ++ type_name (type_of v) ++ "' object has no attribute '" ++ attr ++ "'")).

Fixpoint dict_lookup (k : string) (d : list (string * json)) : option json :=
  match d with
  | [] => None
  | (k', v) :: r => if String.eqb k k' then Some v else dict_lookup k r
  end.

(** [config.get(key, default)] *)
Definition py_get (config : json) (key : string) (default : json) : M json :=
  match config with
  | JDict d =>
      match dict_lookup key d with
      | Some v => ret v
      | None => ret default
      end
  | _ => no_attribute config "get"
  end.

(** [config.items()] *)
Definition py_items (config : json) : M (list (string * json)) :=
  match config with
  | JDict d => ret d
  | _ => no_attribute config "items"
  end.

(** The elements a [for] loop or a comprehension draws from a value. *)
Definition py_iter (v : json) : M (list json) :=
  match v with
  | JList l => ret l
  | JDict d => ret (map (fun kv => JStr (fst kv)) d)
  | JStr s => ret (map (fun c => JStr (String c "")) (list_ascii_of_string s))
  | _ => raise (TypeError
           ("'" ++ type_name (type_of v) ++ "' object is not iterable"))
  end.

(** [json.dumps] on a float. *)
Definition dumps_float (f : float) : string :=
  if negb (PrimFloat.eqb f f) then "NaN"
  else if PrimFloat.eqb f infinity then "Infinity"
  else if PrimFloat.eqb f neg_infinity then "-Infinity"
  else float_repr f.

(** [json.dumps(v)] with its default separators. *)
Fixpoint json_dumps (v : json) : string :=
  match v with
  | JNull => "null"
  | JBool true => "true"
  | JBool false => "false"
  | JInt n => str_int n
  | JFloat f => dumps_float f
  | JStr s => dumps_str s
  | JList l =>
      "[" ++ join ", " (map json_dumps l) ++ "]"
  | JDict d =>
      "{" ++ join ", "
               (map (fun kv => dumps_str (fst kv) ++ ": " ++ json_dumps (snd kv)) d)
          ++ "}"
  end.

(** [str(value)] where the program applies it: to an [int] or a [float]
    (the other scalars are given for completeness; a container never gets
    here). *)
Definition py_str (v : json) : string :=
  match v with
  | JInt n => str_int n
  | JFloat f => float_repr f
  | JBool true => "True"
  | JBool false => "False"
  | JStr s => s
  | JNull => "None"
  | JList _ | JDict _ => ""
  end.

(** The characters of a value known to be a [str]. *)
Definition str_value (v : json) : string :=
  match v with JStr s => s | _ => "" end.

(** ** Helpers *)

Definition ensure_type (value : json) (expected_type : pytype) : M unit :=
  if isinstance value expected_type then ret tt
  else raise (TypeError
         ("Expected " ++ type_name expected_type ++ ", got "
            ++ type_name (type_of value))).

(** ** .system *)

(** The first loop of [handle_system_defaults]: the entries
    [(namespace, key, value)] in iteration order. *)
Fixpoint collect_entries (entries : list (string * string * json))
  (items : list (string * json)) : M (list (string * string * json)) :=
  match items with
  | [] => ret entries
  | (namespace, settings) :: rest =>
      ensure_type settings TDict ;;
      kvs <- py_items settings ;;
      collect_entries
        (entries ++ map (fun kv => (namespace, fst kv, snd kv)) kvs)%list rest
  end.

(** The command built for one entry by the body of the second loop. *)
Definition defaults_command (namespace key : string) (value : json)
  : M (list string) :=
  let command := ["defaults"; "write"; namespace; key] in
  if isinstance value TBool then
    ret (command ++ ["-bool"] ++ [if truthy value then "true" else "false"])%list
  else if isinstance value TStr then
    ret (command ++ [str_value value])%list
  else if isinstance value TInt then
    ret (command ++ [py_str value])%list
  else if isinstance value TFloat then
    ret (command ++ [py_str value])%list
  else
    raise (TypeError ("Unsupported value type: " ++ type_name (type_of value))).

(** The second loop of [handle_system_defaults]. *)
Fixpoint write_entries (dry_run : bool) (entries : list (string * string * json))
  : M unit :=
  match entries with
  | [] => ret tt
  | (namespace, key, value) :: rest =>
      command <- defaults_command namespace key value ;;
      print [".system.defaults: executing"; join " " command] ;;
      (if dry_run then ret tt else subprocess_run command None true) ;;
      write_entries dry_run rest
  end.

Definition handle_system_defaults (dry_run : bool) (config : json) : M unit :=
  ensure_type config TDict ;;
  items <- py_items config ;;
  entries <- collect_entries [] items ;;
  write_entries dry_run entries.

Definition handle_system (dry_run : bool) (config : json) : M unit :=
  ensure_type config TDict ;;
  defaults_config <- py_get config "defaults" JNull ;;
  if truthy defaults_config then handle_system_defaults dry_run defaults_config
  else ret tt.

(** ** .packages *)

(** The four line formats of the Brewfile, as the f-strings give them. *)
Definition tap_line (tap : json) : string := "tap " ++ json_dumps tap.
Definition brew_line (brew : json) : string := "brew " ++ json_dumps brew.
Definition cask_line (cask : json) : string := "cask " ++ json_dumps cask.
Definition mas_line (item : string * json) : string :=
  "mas " ++ json_dumps (JStr (fst item)) ++ ", id: " ++ json_dumps (snd item).

(** The list [lines] after its four [+=]. *)
Definition brewfile_lines (taps brews casks : list json)
  (mas_apps : list (string * json)) : list string :=
  (map tap_line taps ++ map brew_line brews ++ map cask_line casks
   ++ map mas_line mas_apps)%list.

(** The part of [handle_packages_homebrew] before its first [print]:
    validation of the fields and construction of the Brewfile. *)
Definition compile_brewfile (config : json) : M string :=
  ensure_type config TDict ;;
  taps <- py_get config "taps" (JList []) ;;
  ensure_type taps TList ;;
  brews <- py_get config "brews" (JList []) ;;
  ensure_type brews TList ;;
  casks <- py_get config "casks" (JList []) ;;
  ensure_type casks TList ;;
  mas_apps <- py_get config "mas_apps" (JDict []) ;;
  ensure_type mas_apps TDict ;;
  taps' <- py_iter taps ;;
  brews' <- py_iter brews ;;
  casks' <- py_iter casks ;;
  mas_apps' <- py_items mas_apps ;;
  ret (join nl (brewfile_lines taps' brews' casks' mas_apps')).

Definition brew_upgrade : list string := ["brew"; "bundle"; "upgrade"; "--file=-"].
Definition brew_cleanup : list string := ["brew"; "bundle"; "cleanup"; "--force"].

Definition handle_packages_homebrew (dry_run : bool) (config : json) : M unit :=
  brewfile <- compile_brewfile config ;;
  print [".packages.homebrew: applying Brewfile:" ++ nl ++ "---" ++ nl
           ++ brewfile ++ nl ++ "---"] ;;
  if dry_run then ret tt
  else
    subprocess_run brew_upgrade (Some brewfile) true ;;
    subprocess_run brew_cleanup None false.

Definition handle_packages (dry_run : bool) (config : json) : M unit :=
  ensure_type config TDict ;;
  homebrew_config <- py_get config "homebrew" JNull ;;
  if truthy homebrew_config then handle_packages_homebrew dry_run homebrew_config
  else ret tt.

(** ** .programs *)

Definition handle_programs_git (dry_run : bool) (config : json) : M unit :=
  ret tt.

Definition handle_programs (dry_run : bool) (config : json) : M unit :=
  ensure_type config TDict ;;
  git_config <- py_get config "git" JNull ;;
  if truthy git_config then handle_programs_git dry_run git_config
  else ret tt.

(** ** Main *)

(** [main] from the point where [json.load] has returned [config]; the
    command line and the file are outside the model. *)
Definition main (dry_run : bool) (config : json) : M unit :=
  ensure_type config TDict ;;
  system_config <- py_get config "system" JNull ;;
  (if truthy system_config then handle_system dry_run system_config
   else ret tt) ;;
  packages_config <- py_get config "packages" JNull ;;
  (if truthy packages_config then handle_packages dry_run packages_config
   else ret tt) ;;
  programs_config <- py_get config "programs" JNull ;;
  (if truthy programs_config then handle_programs dry_run programs_config
   else ret tt).

(** ** The specification's reading of the system-defaults compiler *)

(** Value arguments by the tag of the value: one arm per supported kind. *)
Definition spec_value_args (value : json) : option (list string) :=
  match value with
  | JBool true => Some ["-bool"; "true"]
  | JBool false => Some ["-bool"; "false"]
  | JStr s => Some [s]
  | JInt n => Some [str_int n]
  | JFloat f => Some [float_repr f]
  | JNull | JList _ | JDict _ => None
  end.

Definition supported (value : json) : bool :=
  match value with
  | JBool _ | JStr _ | JInt _ | JFloat _ => true
  | JNull | JList _ | JDict _ => false
  end.

(** The action of an entry: program [defaults], then [write], the
    namespace, the key and the value arguments. *)
Definition spec_command (entry : string * string * json) : list string :=
  match entry with
  | (namespace, key, value) =>
      ("defaults" :: "write" :: namespace :: key
         :: match spec_value_args value with Some a => a | None => [] end)%list
  end.

(** The description printed for an entry. *)
Definition describe (entry : string * string * json) : event :=
  Print (".system.defaults: executing " ++ join " " (spec_command entry) ++ nl).

(** The events of one entry in apply mode: its description, then its
    launch with [check=True] and no standard input. *)
Definition applied (entry : string * string * json) : list event :=
  [describe entry; Run (spec_command entry) None true].

Definition is_dict (v : json) : bool :=
  match v with JDict _ => true | _ => false end.

(** The entries of a mapping of mappings, namespace by namespace and key
    by key. *)
Fixpoint entries_of (items : list (string * json))
  : list (string * string * json) :=
  match items with
  | [] => []
  | (namespace, JDict kvs) :: rest =>
      (map (fun kv => (namespace, fst kv, snd kv)) kvs ++ entries_of rest)%list
  | (_, _) :: rest => entries_of rest
  end.

(** The outcome of a run that went through [x] and then met an exception
    [e]: an exception of [x] itself comes first. *)
Definition then_raise (x : res unit * World * list event) (e : exn)
  : res unit * World * list event :=
  match x with
  | (Ok _, w, t) => (Raise e, w, t)
  | (Raise e', w, t) => (Raise e', w, t)
  end.

(** Every launch ends with exit status 0. *)
Definition always_succeeds : Prop :=
  forall w cmd input, fst (spawn w cmd input) = Exited 0.

(** A computation that launches nothing: the world is as before and the
    trace has no [Run]. *)
Definition no_launch {A : Type} (m : M A) : Prop :=
  forall w, final (m w) = w /\ launched (trace (m w)) = [].

(** ** The specification's reading of the homebrew compiler *)

Inductive number : Type :=
| NInt (n : Z)
| NFloat (f : float).

Definition json_of_number (n : number) : json :=
  match n with NInt z => JInt z | NFloat f => JFloat f end.

(** The unquoted text of a numeric identifier. *)
Definition number_text (n : number) : string :=
  match n with NInt z => str_int z | NFloat f => dumps_float f end.

(** A line [tap <q>], [brew <q>] or [cask <q>], where [<q>] is the string
    as a JSON string literal. *)
Definition spec_line (kind name : string) : string :=
  kind ++ " " ++ dumps_str name.

(** A line [mas <q>, id: <id>]. *)
Definition spec_mas_line (app : string * number) : string :=
  "mas " ++ dumps_str (fst app) ++ ", id: " ++ number_text (snd app).

(** One line per entry: taps, brews, casks, then the store applications,
    joined by newlines. *)
Definition spec_manifest (taps brews casks : list string)
  (mas_apps : list (string * number)) : string :=
  join nl
    (map (spec_line "tap") taps ++ map (spec_line "brew") brews
     ++ map (spec_line "cask") casks ++ map spec_mas_line mas_apps)%list.

(** The value of a field of a mapping, or its default when the key is
    missing. *)
Definition field_or (d : list (string * json)) (key : string)
  (default : json) : json :=
  match dict_lookup key d with Some v => v | None => default end.

(** What [handle_packages_homebrew] prints around the Brewfile. *)
Definition brewfile_report (brewfile : string) : event :=
  Print ((".packages.homebrew: applying Brewfile:" ++ nl ++ "---" ++ nl
            ++ brewfile ++ nl ++ "---") ++ nl).

(** ** The specification's reading of the orchestrator *)

(** A section is absent or an empty mapping. *)
Definition section_empty (d : list (string * json)) (key : string) : Prop :=
  dict_lookup key d = None \/ dict_lookup key d = Some (JDict []).

(** One domain of the orchestrator: the compiler runs on the value of the
    key when that value is true in a condition; a missing key gives
    [None], which is not. *)
Definition dispatch (d : list (string * json)) (key : string)
  (compiler : json -> M unit) : M unit :=
  match dict_lookup key d with
  | Some v => if truthy v then compiler v else ret tt
  | None => ret tt
  end.

Definition known_key (k : string) : bool :=
  String.eqb k "system" || String.eqb k "packages" || String.eqb k "programs".

(** ** Notions for the properties of the handlers *)

Definition is_list (v : json) : bool :=
  match v with JList _ => true | _ => false end.

(** The exception of [ensure_type] on a value of another type. *)
Definition expected (t : pytype) (v : json) : exn :=
  TypeError ("Expected " ++ type_name t ++ ", got " ++ type_name (type_of v)).

(** [preview] is to [real] what a dry run is to the run it announces: from
    any two worlds they end alike and print the same texts. *)
Definition previews {A : Type} (real preview : M A) : Prop :=
  forall w w',
    result (real w) = result (preview w') /\
    printed (trace (real w)) = printed (trace (preview w')).

(** The events of the first [k] entries of a plan, in either mode. *)
Definition plan_prefix (dry_run : bool) (k : nat)
  (entries : list (string * string * json)) : list event :=
  if dry_run then map describe (firstn k entries)
  else flat_map applied (firstn k entries).

(** Every character is in the printable range of ASCII. *)
Definition printable_ascii (s : string) : bool :=
  forallb (fun c => (32 <=? N_of_ascii c)%N && (N_of_ascii c <=? 126)%N)
    (list_ascii_of_string s).

(** ** Laws of the monad *)

Lemma bind_pure {A B : Type} (m : M A) (k : A -> M B) (a : A) (w : World) :
  m w = (Ok a, w, []) -> bind m k w = k a w.
Proof.
  intros H. unfold bind. rewrite H.
  destruct (k a w) as [[r w2] t2]. reflexivity.
Qed.

Lemma bind_ok {A B : Type} (m : M A) (k : A -> M B) a w w1 t1 :
  m w = (Ok a, w1, t1) ->
  bind m k w = (result (k a w1), final (k a w1), (t1 ++ trace (k a w1))%list).
Proof.
  intros H. unfold bind. rewrite H.
  destruct (k a w1) as [[r w2] t2]. reflexivity.
Qed.

Lemma bind_raise {A B : Type} (m : M A) (k : A -> M B) e w w1 t1 :
  m w = (Raise e, w1, t1) -> bind m k w = (Raise e, w1, t1).
Proof.
  intros H. unfold bind. rewrite H. reflexivity.
Qed.

Lemma ensure_type_ok (v : json) (t : pytype) (w : World) :
  isinstance v t = true -> ensure_type v t w = (Ok tt, w, []).
Proof.
  intros H. unfold ensure_type. rewrite H. reflexivity.
Qed.

Lemma ensure_type_raise (v : json) (t : pytype) (w : World) :
  isinstance v t = false ->
  ensure_type v t w =
    (Raise (TypeError ("Expected " ++ type_name t ++ ", got "
                         ++ type_name (type_of v))), w, []).
Proof.
  intros H. unfold ensure_type. rewrite H. reflexivity.
Qed.

Lemma isinstance_dict (v : json) : isinstance v TDict = is_dict v.
Proof. destruct v; reflexivity. Qed.

Lemma print_run (args : list string) (w : World) :
  print args w = (Ok tt, w, [Print (join " " args ++ nl)]).
Proof. reflexivity. Qed.

Lemma subprocess_run_exit0 cmd input check w :
  fst (spawn w cmd input) = Exited 0 ->
  subprocess_run cmd input check w
  = (Ok tt, snd (spawn w cmd input), [Run cmd input check]).
Proof.
  unfold subprocess_run. destruct (spawn w cmd input) as [o w']. simpl.
  intros ->. rewrite andb_false_r. reflexivity.
Qed.

(** ** The system-defaults compiler *)

(** The chain of [isinstance] tests builds the command the tagged reading
    gives, and raises exactly on the values that reading rejects. *)
Lemma defaults_command_spec namespace key value w :
  defaults_command namespace key value w =
    if supported value
    then (Ok (spec_command (namespace, key, value)), w, [])
    else (Raise (TypeError
            ("Unsupported value type: " ++ type_name (type_of value))), w, []).
Proof.
  destruct value as [|[]| | | | |]; reflexivity.
Qed.

Lemma collect_entries_ok items : forall entries w,
  forallb is_dict (map snd items) = true ->
  collect_entries entries items w
  = (Ok (entries ++ entries_of items)%list, w, []).
Proof.
  induction items as [|[namespace settings] rest IH]; intros entries w H.
  - simpl. rewrite app_nil_r. reflexivity.
  - simpl in H. apply andb_true_iff in H. destruct H as [Hd Hrest].
    destruct settings; try discriminate Hd.
    simpl. rewrite (bind_pure _ _ tt) by reflexivity.
    rewrite (bind_pure _ _ d) by reflexivity.
    rewrite IH by exact Hrest. rewrite app_assoc. reflexivity.
Qed.

(** The first namespace whose value is not a mapping, if there is one. *)
Lemma collect_entries_raise items : forall entries w,
  forallb is_dict (map snd items) = false ->
  exists v, In v (map snd items) /\ is_dict v = false /\
    collect_entries entries items w
    = (Raise (TypeError ("Expected dict, got " ++ type_name (type_of v))), w, []).
Proof.
  induction items as [|[namespace settings] rest IH]; intros entries w H.
  - discriminate H.
  - simpl in H. destruct (is_dict settings) eqn:Hd.
    + simpl in H. destruct settings; try discriminate Hd.
      destruct (IH (entries ++ map (fun kv => (namespace, fst kv, snd kv)) d)%list
                  w H) as (v & Hin & Hv & Hrun).
      exists v. split; [right; exact Hin|]. split; [exact Hv|].
      simpl. rewrite (bind_pure _ _ tt) by reflexivity.
      rewrite (bind_pure _ _ d) by reflexivity. exact Hrun.
    + exists settings. split; [left; reflexivity|]. split; [exact Hd|].
      simpl. apply bind_raise. apply ensure_type_raise.
      rewrite isinstance_dict. exact Hd.
Qed.

Lemma handle_system_defaults_entries dry_run d w :
  forallb is_dict (map snd d) = true ->
  handle_system_defaults dry_run (JDict d) w
  = write_entries dry_run (entries_of d) w.
Proof.
  intros H. unfold handle_system_defaults.
  rewrite (bind_pure _ _ tt) by reflexivity.
  rewrite (bind_pure _ _ d) by reflexivity.
  rewrite (bind_pure _ _ (entries_of d)); [reflexivity|].
  rewrite collect_entries_ok by exact H. reflexivity.
Qed.

Lemma defaults_command_ok namespace key value w :
  supported value = true ->
  defaults_command namespace key value w
  = (Ok (spec_command (namespace, key, value)), w, []).
Proof. intros H. rewrite defaults_command_spec, H. reflexivity. Qed.

Lemma defaults_command_raise namespace key value w :
  supported value = false ->
  defaults_command namespace key value w
  = (Raise (TypeError
       ("Unsupported value type: " ++ type_name (type_of value))), w, []).
Proof. intros H. rewrite defaults_command_spec, H. reflexivity. Qed.

Lemma bind_then_raise {A : Type} (m : M A) (k1 k2 : A -> M unit) e w :
  (forall a w1, k1 a w1 = then_raise (k2 a w1) e) ->
  bind m k1 w = then_raise (bind m k2 w) e.
Proof.
  intros H. unfold bind. destruct (m w) as [[[a|x] w1] t1]; [|reflexivity].
  rewrite H. destruct (k2 a w1) as [[[[]|x] w2] t2]; reflexivity.
Qed.

Lemma write_entries_dry entries : forall w,
  forallb (fun e => supported (snd e)) entries = true ->
  write_entries true entries w = (Ok tt, w, map describe entries).
Proof.
  induction entries as [|[[namespace key] value] rest IH]; intros w H.
  - reflexivity.
  - cbn [forallb snd] in H. apply andb_true_iff in H. destruct H as [Hv Hrest].
    cbn [write_entries].
    rewrite (bind_pure _ _ (spec_command (namespace, key, value)))
      by (apply defaults_command_ok; exact Hv).
    rewrite (bind_ok _ _ tt w w [describe (namespace, key, value)])
      by reflexivity.
    rewrite (bind_pure _ _ tt) by reflexivity.
    rewrite IH by exact Hrest. reflexivity.
Qed.

Lemma write_entries_apply (Hspawn : always_succeeds) entries : forall w,
  forallb (fun e => supported (snd e)) entries = true ->
  result (write_entries false entries w) = Ok tt /\
  trace (write_entries false entries w) = flat_map applied entries.
Proof.
  induction entries as [|[[namespace key] value] rest IH]; intros w H.
  - split; reflexivity.
  - cbn [forallb snd] in H. apply andb_true_iff in H. destruct H as [Hv Hrest].
    cbn [write_entries].
    rewrite (bind_pure _ _ (spec_command (namespace, key, value)))
      by (apply defaults_command_ok; exact Hv).
    rewrite (bind_ok _ _ tt w w [describe (namespace, key, value)])
      by reflexivity.
    rewrite (bind_ok _ _ tt w _ _
               (subprocess_run_exit0 _ _ _ _ (Hspawn _ _ _))).
    destruct (IH (snd (spawn w (spec_command (namespace, key, value)) None))
                Hrest) as [Hr Ht].
    unfold result, trace in *. cbn [fst snd]. rewrite Hr, Ht.
    split; reflexivity.
Qed.

(** The loop stops at the first entry it cannot compile: whatever follows
    that entry plays no part. *)
Lemma write_entries_stop dry_run pre namespace key value post : forall w,
  forallb (fun e => supported (snd e)) pre = true ->
  supported value = false ->
  write_entries dry_run (pre ++ (namespace, key, value) :: post)%list w
  = then_raise (write_entries dry_run pre w)
      (TypeError ("Unsupported value type: " ++ type_name (type_of value))).
Proof.
  induction pre as [|[[ns k] v] pre IH]; intros w H Hbad.
  - cbn [app write_entries]. apply bind_raise.
    apply defaults_command_raise. exact Hbad.
  - cbn [forallb snd] in H. apply andb_true_iff in H. destruct H as [Hv Hpre].
    cbn [app write_entries].
    apply bind_then_raise. intros command w1.
    apply bind_then_raise. intros [] w2.
    apply bind_then_raise. intros [] w3.
    apply IH; assumption.
Qed.

Lemma launched_applied entries :
  launched (flat_map applied entries) = map spec_command entries.
Proof.
  induction entries as [|e rest IH]; [reflexivity|].
  cbn [flat_map applied app launched describe map]. rewrite IH. reflexivity.
Qed.

Lemma printed_applied entries :
  printed (flat_map applied entries) = printed (map describe entries).
Proof.
  induction entries as [|e rest IH]; [reflexivity|].
  cbn [flat_map applied app printed describe map]. rewrite IH. reflexivity.
Qed.

(** C2: the args of the action compiled for an entry are [write], the
    namespace and the key, followed by [-bool true] or [-bool false] for a
    boolean (which also passes the test of the integer arm, and is not
    compiled by it), the string itself for a string, and the decimal text
    for an integer or a float; over a whole configuration of supported
    values the described and the launched commands are these, in iteration
    order; and the entry [flag: true] of [com.example.app] launches
    [defaults write com.example.app flag -bool true]. *)
Theorem defaults_value_args (namespace key : string) (w : World) :
  (forall b : bool,
      isinstance (JBool b) TInt = true /\
      defaults_command namespace key (JBool b) w
      = (Ok ["defaults"; "write"; namespace; key; "-bool";
             if b then "true" else "false"], w, [])) /\
  (forall s : string,
      defaults_command namespace key (JStr s) w
      = (Ok ["defaults"; "write"; namespace; key; s], w, [])) /\
  (forall n : Z,
      defaults_command namespace key (JInt n) w
      = (Ok ["defaults"; "write"; namespace; key; str_int n], w, [])) /\
  (forall f : float,
      defaults_command namespace key (JFloat f) w
      = (Ok ["defaults"; "write"; namespace; key; float_repr f], w, [])) /\
  (forall d : list (string * json),
      forallb is_dict (map snd d) = true ->
      forallb (fun e => supported (snd e)) (entries_of d) = true ->
      handle_system_defaults true (JDict d) w
      = (Ok tt, w, map describe (entries_of d)) /\
      (always_succeeds ->
       result (handle_system_defaults false (JDict d) w) = Ok tt /\
       trace (handle_system_defaults false (JDict d) w)
       = flat_map applied (entries_of d) /\
       launched (trace (handle_system_defaults false (JDict d) w))
       = map spec_command (entries_of d))) /\
  launched (trace (handle_system_defaults false
     (JDict [("com.example.app", JDict [("flag", JBool true)])]) w))
  = [["defaults"; "write"; "com.example.app"; "flag"; "-bool"; "true"]].
Proof.
  split; [intros []; split; reflexivity|].
  split; [reflexivity|]. split; [reflexivity|]. split; [reflexivity|].
  split.
  - intros d Hd Hs. rewrite !handle_system_defaults_entries by exact Hd.
    split; [apply write_entries_dry; exact Hs|].
    intros Hspawn.
    destruct (write_entries_apply Hspawn (entries_of d) w Hs) as [Hr Ht].
    rewrite Hr, Ht, launched_applied. repeat split.
  - rewrite handle_system_defaults_entries by reflexivity.
    cbn [entries_of map app fst snd write_entries].
    rewrite (bind_pure _ _
      ["defaults"; "write"; "com.example.app"; "flag"; "-bool"; "true"])
      by reflexivity.
    unfold bind, print, subprocess_run, ret, trace.
    destruct (spawn w _ None) as [[rc|] w'];
      [destruct (true && negb (rc =? 0))|]; reflexivity.
Qed.

(** C5: when the first entry of an unsupported type (null, a sequence, a
    mapping) is met, the handler raises the TypeError of that entry; the
    run is the run over the entries strictly before it, so neither that
    entry nor a later one is described or launched.  In dry-run mode every
    earlier entry has been described; in apply mode, the launches
    succeeding, every earlier entry has been described and launched. *)
Theorem unsupported_value_aborts (dry_run : bool) (d : list (string * json))
  (pre post : list (string * string * json)) (namespace key : string)
  (value : json) (w : World) :
  forallb is_dict (map snd d) = true ->
  entries_of d = (pre ++ (namespace, key, value) :: post)%list ->
  forallb (fun e => supported (snd e)) pre = true ->
  supported value = false ->
  let err :=
    TypeError ("Unsupported value type: " ++ type_name (type_of value)) in
  handle_system_defaults dry_run (JDict d) w
  = then_raise (write_entries dry_run pre w) err /\
  handle_system_defaults true (JDict d) w = (Raise err, w, map describe pre) /\
  (always_succeeds ->
   result (handle_system_defaults false (JDict d) w) = Raise err /\
   trace (handle_system_defaults false (JDict d) w) = flat_map applied pre).
Proof.
  intros Hd He Hpre Hbad err.
  rewrite !handle_system_defaults_entries by exact Hd.
  rewrite He, !write_entries_stop by assumption. fold err.
  split; [reflexivity|]. split.
  - rewrite write_entries_dry by exact Hpre. reflexivity.
  - intros Hspawn.
    destruct (write_entries_apply Hspawn pre w Hpre) as [Hr Ht].
    destruct (write_entries false pre w) as [[r w1] t1].
    unfold result, trace in *. cbn [fst snd] in *. subst r t1.
    split; reflexivity.
Qed.

(** C9: when the value of some namespace is not a mapping, the handler
    raises the shape TypeError of the first such namespace while it
    collects the entries: nothing has been described, nothing has been
    launched and the world is untouched, in either mode, whatever
    well-formed namespaces come first. *)
Theorem namespace_shape_error_is_atomic (dry_run : bool)
  (d : list (string * json)) (namespace : string) (settings : json)
  (w : World) :
  In (namespace, settings) d ->
  is_dict settings = false ->
  exists v : json,
    In v (map snd d) /\ is_dict v = false /\
    handle_system_defaults dry_run (JDict d) w
    = (Raise (TypeError ("Expected dict, got " ++ type_name (type_of v))),
       w, []).
Proof.
  intros Hin Hbad.
  assert (Hall : forallb is_dict (map snd d) = false).
  { destruct (forallb is_dict (map snd d)) eqn:E; [|reflexivity].
    rewrite forallb_forall in E.
    rewrite <- Hbad. symmetry. apply (E settings).
    apply (in_map snd d (namespace, settings)). exact Hin. }
  destruct (collect_entries_raise d [] w Hall) as (v & Hv & Hnd & Hrun).
  exists v. split; [exact Hv|]. split; [exact Hnd|].
  unfold handle_system_defaults.
  rewrite (bind_pure _ _ tt) by reflexivity.
  rewrite (bind_pure _ _ d) by reflexivity.
  apply bind_raise. exact Hrun.
Qed.

(** ** The homebrew compiler *)

Lemma escape_char_one_line (c : ascii) : one_line (escape_char c) = true.
Proof. destruct c as [[] [] [] [] [] [] [] []]; reflexivity. Qed.

Lemma one_line_app (a b : string) :
  one_line (a ++ b) = one_line a && one_line b.
Proof.
  unfold one_line. induction a as [|c a IH]; [reflexivity|].
  cbn [append list_ascii_of_string existsb].
  rewrite !negb_orb, <- andb_assoc. f_equal. exact IH.
Qed.

(** A JSON string literal has no raw line terminator: the encoding writes
    it as a backslash and an [n]. *)
Lemma dumps_str_one_line (s : string) : one_line (dumps_str s) = true.
Proof.
  unfold dumps_str.
  change (String dquote (escape_string s ++ String dquote ""))
    with (String dquote "" ++ (escape_string s ++ String dquote "")).
  rewrite !one_line_app.
  replace (one_line (escape_string s)) with true; [reflexivity|].
  induction s as [|c s IH]; [reflexivity|].
  cbn [escape_string]. rewrite one_line_app, escape_char_one_line, <- IH.
  reflexivity.
Qed.

Lemma py_get_dict d key default w :
  py_get (JDict d) key default w = (Ok (field_or d key default), w, []).
Proof.
  unfold py_get, field_or. destruct (dict_lookup key d); reflexivity.
Qed.

(** With the three sequences and the mapping in place (or missing), the
    validation passes and the Brewfile is the joined lines; nothing is
    asked of the elements or of the identifiers. *)
Lemma compile_brewfile_ok d taps brews casks mas_apps w :
  field_or d "taps" (JList []) = JList taps ->
  field_or d "brews" (JList []) = JList brews ->
  field_or d "casks" (JList []) = JList casks ->
  field_or d "mas_apps" (JDict []) = JDict mas_apps ->
  compile_brewfile (JDict d) w
  = (Ok (join nl (brewfile_lines taps brews casks mas_apps)), w, []).
Proof.
  intros Ht Hb Hc Hm. unfold compile_brewfile.
  rewrite (bind_pure _ _ tt) by reflexivity.
  rewrite (bind_pure _ _ (JList taps)) by (rewrite py_get_dict, Ht; reflexivity).
  rewrite (bind_pure _ _ tt) by reflexivity.
  rewrite (bind_pure _ _ (JList brews)) by (rewrite py_get_dict, Hb; reflexivity).
  rewrite (bind_pure _ _ tt) by reflexivity.
  rewrite (bind_pure _ _ (JList casks)) by (rewrite py_get_dict, Hc; reflexivity).
  rewrite (bind_pure _ _ tt) by reflexivity.
  rewrite (bind_pure _ _ (JDict mas_apps))
    by (rewrite py_get_dict, Hm; reflexivity).
  rewrite (bind_pure _ _ tt) by reflexivity.
  rewrite (bind_pure _ _ taps) by reflexivity.
  rewrite (bind_pure _ _ brews) by reflexivity.
  rewrite (bind_pure _ _ casks) by reflexivity.
  rewrite (bind_pure _ _ mas_apps) by reflexivity.
  reflexivity.
Qed.

Lemma homebrew_dry config brewfile w :
  compile_brewfile config w = (Ok brewfile, w, []) ->
  handle_packages_homebrew true config w
  = (Ok tt, w, [brewfile_report brewfile]).
Proof.
  intros H. unfold handle_packages_homebrew.
  rewrite (bind_pure _ _ brewfile) by exact H.
  rewrite (bind_ok _ _ tt w w [brewfile_report brewfile]) by reflexivity.
  reflexivity.
Qed.

Lemma homebrew_apply config brewfile w :
  compile_brewfile config w = (Ok brewfile, w, []) ->
  handle_packages_homebrew false config w
  = (let x := bind (subprocess_run brew_upgrade (Some brewfile) true)
                (fun _ => subprocess_run brew_cleanup None false) w in
     (result x, final x, brewfile_report brewfile :: trace x)).
Proof.
  intros H. unfold handle_packages_homebrew.
  rewrite (bind_pure _ _ brewfile) by exact H.
  rewrite (bind_ok _ _ tt w w [brewfile_report brewfile]) by reflexivity.
  reflexivity.
Qed.

Lemma spec_lines_refine taps brews casks mas_apps :
  brewfile_lines (map JStr taps) (map JStr brews) (map JStr casks)
    (map (fun app => (fst app, json_of_number (snd app))) mas_apps)
  = (map (spec_line "tap") taps ++ map (spec_line "brew") brews
     ++ map (spec_line "cask") casks ++ map spec_mas_line mas_apps)%list.
Proof.
  unfold brewfile_lines. rewrite !map_map.
  rewrite (map_ext (fun app => mas_line (fst app, json_of_number (snd app)))
             spec_mas_line).
  - reflexivity.
  - intros [name [z|f]]; reflexivity.
Qed.

(** C1: for a homebrew mapping whose taps, brews and casks are sequences
    of strings and whose mas_apps maps strings to numbers, a missing field
    counting as empty, the Brewfile is the newline-joined lines [tap <q>],
    [brew <q>], [cask <q>] and [mas <q>, id: <id>] in that order, with the
    strings as JSON string literals and the identifier as the bare text of
    the number; it is what the handler prints and, in apply mode, feeds to
    the upgrade; and a tap, brew or cask line holds no line terminator,
    whatever the name, so it is one line. *)
Theorem brewfile_is_spec_manifest (d : list (string * json))
  (taps brews casks : list string) (mas_apps : list (string * number))
  (w : World) :
  field_or d "taps" (JList []) = JList (map JStr taps) ->
  field_or d "brews" (JList []) = JList (map JStr brews) ->
  field_or d "casks" (JList []) = JList (map JStr casks) ->
  field_or d "mas_apps" (JDict [])
  = JDict (map (fun app => (fst app, json_of_number (snd app))) mas_apps) ->
  let manifest := spec_manifest taps brews casks mas_apps in
  compile_brewfile (JDict d) w = (Ok manifest, w, []) /\
  handle_packages_homebrew true (JDict d) w
  = (Ok tt, w, [brewfile_report manifest]) /\
  (exists rest,
    trace (handle_packages_homebrew false (JDict d) w)
    = brewfile_report manifest :: Run brew_upgrade (Some manifest) true :: rest) /\
  (forall kind name,
    one_line kind = true -> one_line (spec_line kind name) = true).
Proof.
  intros Ht Hb Hc Hm manifest.
  assert (Hline : forall kind name,
             one_line kind = true -> one_line (spec_line kind name) = true).
  { intros kind name Hk. unfold spec_line.
    rewrite !one_line_app, Hk, dumps_str_one_line. reflexivity. }
  cut (compile_brewfile (JDict d) w = (Ok manifest, w, []) /\
       handle_packages_homebrew true (JDict d) w
       = (Ok tt, w, [brewfile_report manifest]) /\
       exists rest,
         trace (handle_packages_homebrew false (JDict d) w)
         = brewfile_report manifest
             :: Run brew_upgrade (Some manifest) true :: rest).
  { intros (H1 & H2 & H3). repeat split; assumption. }
  assert (H : compile_brewfile (JDict d) w = (Ok manifest, w, [])).
  { rewrite (compile_brewfile_ok d _ _ _ _ w Ht Hb Hc Hm).
    rewrite spec_lines_refine. reflexivity. }
  split; [exact H|]. split; [apply homebrew_dry; exact H|].
  rewrite (homebrew_apply _ _ _ H). cbn zeta. unfold trace at 1. cbn [snd].
  unfold bind, subprocess_run.
  destruct (spawn w brew_upgrade (Some manifest)) as [[rc|] w1].
  - destruct (true && negb (rc =? 0)).
    + exists []. reflexivity.
    + destruct (spawn w1 brew_cleanup None) as [[rc2|] w2];
        [destruct (false && negb (rc2 =? 0))|]; eexists; reflexivity.
  - exists []. reflexivity.
Qed.

(** C10: the values of mas_apps go through no type test.  Whatever they
    are, compilation succeeds and the line of an application is
    [mas <json(name)>, id: <json(value)>]; a string value is written as a
    quoted JSON string, as in [mas "Foo", id: "123"]. *)
Theorem mas_ids_are_not_type_checked (d : list (string * json))
  (taps brews casks : list json) (mas_apps : list (string * json))
  (w : World) :
  field_or d "taps" (JList []) = JList taps ->
  field_or d "brews" (JList []) = JList brews ->
  field_or d "casks" (JList []) = JList casks ->
  field_or d "mas_apps" (JDict []) = JDict mas_apps ->
  compile_brewfile (JDict d) w
  = (Ok (join nl (map tap_line taps ++ map brew_line brews
                    ++ map cask_line casks ++ map mas_line mas_apps)%list),
     w, []) /\
  (forall name value,
      mas_line (name, value)
      = "mas " ++ dumps_str name ++ ", id: " ++ json_dumps value) /\
  (forall name s,
      mas_line (name, JStr s)
      = "mas " ++ dumps_str name ++ ", id: " ++ quoted (escape_string s)) /\
  compile_brewfile homebrew_string_id w
  = (Ok ("mas " ++ quoted "Foo" ++ ", id: " ++ quoted "123"), w, []).
Proof.
  intros Ht Hb Hc Hm.
  split; [apply compile_brewfile_ok; assumption|].
  split; [reflexivity|]. split; reflexivity.
Qed.

(** C8, as the code has it: in dry-run mode the Brewfile is reported and
    nothing is launched.  In apply mode the upgrade is launched with the
    Brewfile on its standard input and [check=True]; when it exits with
    status 0 the cleanup is launched once, with no input and without
    [check], and whatever status it exits with the handler returns
    normally; a cleanup that cannot be started raises, as any launch does.
    When the upgrade exits with another status the handler raises and the
    cleanup is not launched. *)
Theorem cleanup_after_upgrade (config : json) (brewfile : string)
  (w : World) :
  compile_brewfile config w = (Ok brewfile, w, []) ->
  handle_packages_homebrew true config w
  = (Ok tt, w, [brewfile_report brewfile]) /\
  (forall w1 : World,
      spawn w brew_upgrade (Some brewfile) = (Exited 0, w1) ->
      (forall rc w2,
          spawn w1 brew_cleanup None = (Exited rc, w2) ->
          handle_packages_homebrew false config w
          = (Ok tt, w2,
             [brewfile_report brewfile;
              Run brew_upgrade (Some brewfile) true;
              Run brew_cleanup None false])) /\
      (forall w2,
          spawn w1 brew_cleanup None = (StartFailed, w2) ->
          handle_packages_homebrew false config w
          = (Raise (OSError brew_cleanup), w2,
             [brewfile_report brewfile;
              Run brew_upgrade (Some brewfile) true;
              Run brew_cleanup None false]))) /\
  (forall rc w1,
      rc <> 0 ->
      spawn w brew_upgrade (Some brewfile) = (Exited rc, w1) ->
      handle_packages_homebrew false config w
      = (Raise (CalledProcessError rc brew_upgrade), w1,
         [brewfile_report brewfile; Run brew_upgrade (Some brewfile) true])).
Proof.
  intros H. split; [apply homebrew_dry; exact H|].
  rewrite (homebrew_apply _ _ _ H). cbn zeta.
  unfold bind, subprocess_run, result, final, trace.
  split.
  - intros w1 Hup. rewrite Hup. cbn [Z.eqb negb andb].
    split; [intros rc w2 Hcl|intros w2 Hcl]; rewrite Hcl; reflexivity.
  - intros rc w1 Hrc Hup. rewrite Hup.
    apply Z.eqb_neq in Hrc. rewrite Hrc. reflexivity.
Qed.

(** ** Dry-run mode launches nothing *)

Lemma launched_app t1 t2 :
  launched (t1 ++ t2) = (launched t1 ++ launched t2)%list.
Proof.
  induction t1 as [|[s|cmd input check] t1 IH]; cbn [app launched];
    [reflexivity|exact IH|rewrite IH; reflexivity].
Qed.

Lemma launched_nil_prints t :
  launched t = [] -> forallb (fun e => negb (is_run e)) t = true.
Proof.
  induction t as [|[s|cmd input check] t IH]; cbn [launched forallb is_run negb andb].
  - reflexivity.
  - exact IH.
  - discriminate.
Qed.

Lemma no_launch_ret {A : Type} (a : A) : no_launch (ret a).
Proof. intros w. split; reflexivity. Qed.

Lemma no_launch_raise {A : Type} (e : exn) : no_launch (@raise A e).
Proof. intros w. split; reflexivity. Qed.

Lemma no_launch_print args : no_launch (print args).
Proof. intros w. split; reflexivity. Qed.

Lemma no_launch_bind {A B : Type} (m : M A) (k : A -> M B) :
  no_launch m -> (forall a, no_launch (k a)) -> no_launch (bind m k).
Proof.
  intros Hm Hk w. destruct (Hm w) as [Hw Ht]. unfold bind.
  destruct (m w) as [[[a|e] w1] t1]; unfold final, trace in *;
    cbn [fst snd] in *; subst w1.
  - destruct (Hk a w) as [Hw2 Ht2].
    destruct (k a w) as [[r w2] t2]. unfold final, trace in *.
    cbn [fst snd] in *. rewrite launched_app, Ht, Ht2. split; [exact Hw2|reflexivity].
  - split; [reflexivity|exact Ht].
Qed.

Lemma no_launch_ensure_type v t : no_launch (ensure_type v t).
Proof.
  unfold ensure_type. destruct (isinstance v t);
    [apply no_launch_ret|apply no_launch_raise].
Qed.

Lemma no_launch_py_get config key default :
  no_launch (py_get config key default).
Proof.
  destruct config; try apply no_launch_raise.
  cbn [py_get]. destruct (dict_lookup key d); apply no_launch_ret.
Qed.

Lemma no_launch_py_items config : no_launch (py_items config).
Proof.
  destruct config; try apply no_launch_raise. apply no_launch_ret.
Qed.

Lemma no_launch_py_iter v : no_launch (py_iter v).
Proof.
  destruct v; try apply no_launch_raise; apply no_launch_ret.
Qed.

Create HintDb quiet.
#[local] Hint Resolve no_launch_ret no_launch_raise no_launch_print
  no_launch_ensure_type no_launch_py_get no_launch_py_items
  no_launch_py_iter : quiet.

Ltac quiet :=
  repeat match goal with
    | |- no_launch (bind _ _) => apply no_launch_bind; [|intro]
    | |- no_launch (if ?b then _ else _) => destruct b
    | |- no_launch _ => solve [auto with quiet]
    end.

Lemma no_launch_collect_entries items : forall entries,
  no_launch (collect_entries entries items).
Proof.
  induction items as [|[namespace settings] rest IH]; intros entries;
    cbn [collect_entries]; quiet.
Qed.

Lemma no_launch_defaults_command namespace key value :
  no_launch (defaults_command namespace key value).
Proof. unfold defaults_command. cbv zeta. quiet. Qed.

Lemma no_launch_write_entries entries : no_launch (write_entries true entries).
Proof.
  induction entries as [|[[namespace key] value] rest IH];
    cbn [write_entries]; quiet; try apply no_launch_defaults_command.
Qed.

Lemma no_launch_system_defaults config :
  no_launch (handle_system_defaults true config).
Proof.
  unfold handle_system_defaults. quiet;
    first [apply no_launch_collect_entries|apply no_launch_write_entries].
Qed.

Lemma no_launch_compile_brewfile config : no_launch (compile_brewfile config).
Proof. unfold compile_brewfile. quiet. Qed.

Lemma no_launch_packages_homebrew config :
  no_launch (handle_packages_homebrew true config).
Proof.
  unfold handle_packages_homebrew. quiet.
  apply no_launch_compile_brewfile.
Qed.

Lemma no_launch_system config : no_launch (handle_system true config).
Proof.
  unfold handle_system. quiet; try apply no_launch_system_defaults.
Qed.

Lemma no_launch_packages config : no_launch (handle_packages true config).
Proof.
  unfold handle_packages. quiet; try apply no_launch_packages_homebrew.
Qed.

Lemma no_launch_programs dry_run config :
  no_launch (handle_programs dry_run config).
Proof. unfold handle_programs, handle_programs_git. quiet. Qed.

(** C6: in dry-run mode no process is launched anywhere in a run.  For
    every configuration and every world, the run of [main] (and of each
    handler that can launch one) leaves the world as it was and its trace
    holds no launch: every event is a description written to standard
    output.  This is the mode the source is left in. *)
Theorem dry_run_launches_nothing (config : json) :
  no_launch (main true config) /\
  no_launch (main DRY_RUN config) /\
  no_launch (handle_system_defaults true config) /\
  no_launch (handle_packages_homebrew true config) /\
  forall w,
    forallb (fun e => negb (is_run e)) (trace (main true config w)) = true.
Proof.
  assert (Hmain : no_launch (main true config)).
  { unfold main. quiet;
      first [apply no_launch_system|apply no_launch_packages
            |apply no_launch_programs]. }
  split; [exact Hmain|]. split; [exact Hmain|].
  split; [apply no_launch_system_defaults|].
  split; [apply no_launch_packages_homebrew|].
  intros w. apply launched_nil_prints. apply Hmain.
Qed.

(** ** The orchestrator *)

Lemma bind_ext {A B : Type} (m : M A) (k1 k2 : A -> M B) w :
  (forall a w1, k1 a w1 = k2 a w1) -> bind m k1 w = bind m k2 w.
Proof.
  intros H. unfold bind. destruct (m w) as [[[a|e] w1] t1]; [|reflexivity].
  rewrite H. reflexivity.
Qed.

Lemma dispatch_field d key (compiler : json -> M unit) :
  (if truthy (field_or d key JNull) then compiler (field_or d key JNull)
   else ret tt)
  = dispatch d key compiler.
Proof.
  unfold dispatch, field_or. destruct (dict_lookup key d); reflexivity.
Qed.

Lemma section_last d key (compiler : json -> M unit) w :
  bind (py_get (JDict d) key JNull)
    (fun v => if truthy v then compiler v else ret tt) w
  = dispatch d key compiler w.
Proof.
  rewrite (bind_pure _ _ (field_or d key JNull)) by apply py_get_dict.
  rewrite dispatch_field. reflexivity.
Qed.

Lemma section_step {B : Type} d key (compiler : json -> M unit) (k : M B) w :
  bind (py_get (JDict d) key JNull)
    (fun v => bind (if truthy v then compiler v else ret tt) (fun _ => k)) w
  = bind (dispatch d key compiler) (fun _ => k) w.
Proof.
  rewrite (bind_pure _ _ (field_or d key JNull)) by apply py_get_dict.
  rewrite dispatch_field. reflexivity.
Qed.

(** [main] is the three dispatches in the order system, packages,
    programs; no other key of the configuration is looked at. *)
Lemma main_dispatch dry_run d w :
  main dry_run (JDict d) w
  = bind (dispatch d "system" (handle_system dry_run))
      (fun _ => bind (dispatch d "packages" (handle_packages dry_run))
         (fun _ => dispatch d "programs" (handle_programs dry_run))) w.
Proof.
  unfold main. rewrite (bind_pure _ _ tt) by reflexivity.
  rewrite section_step. apply bind_ext. intros _ w1.
  rewrite section_step. apply bind_ext. intros _ w2.
  apply section_last.
Qed.

Lemma dispatch_empty d key (compiler : json -> M unit) w :
  section_empty d key -> dispatch d key compiler w = (Ok tt, w, []).
Proof.
  unfold dispatch. intros [H|H]; rewrite H; reflexivity.
Qed.

Lemma dispatch_falsy d key (compiler : json -> M unit) v w :
  dict_lookup key d = Some v -> truthy v = false ->
  dispatch d key compiler w = (Ok tt, w, []).
Proof.
  unfold dispatch. intros H Hv. rewrite H, Hv. reflexivity.
Qed.

Lemma dispatch_truthy d key (compiler : json -> M unit) v w :
  dict_lookup key d = Some v -> truthy v = true ->
  dispatch d key compiler w = compiler v w.
Proof.
  unfold dispatch. intros H Hv. rewrite H, Hv. reflexivity.
Qed.

Lemma dict_lookup_skip key k v d1 d2 :
  String.eqb key k = false ->
  dict_lookup key (d1 ++ (k, v) :: d2) = dict_lookup key (d1 ++ d2).
Proof.
  intros H. induction d1 as [|[k1 v1] d1 IH]; cbn [app dict_lookup].
  - rewrite H. reflexivity.
  - rewrite IH. reflexivity.
Qed.

Lemma dispatch_skip key k v d1 d2 (compiler : json -> M unit) :
  String.eqb key k = false ->
  dispatch (d1 ++ (k, v) :: d2) key compiler
  = dispatch (d1 ++ d2) key compiler.
Proof.
  intros H. unfold dispatch. rewrite dict_lookup_skip by exact H. reflexivity.
Qed.

Lemma section_handlers_validate dry_run v w :
  is_dict v = false ->
  let err := TypeError ("Expected dict, got " ++ type_name (type_of v)) in
  handle_system dry_run v w = (Raise err, w, []) /\
  handle_packages dry_run v w = (Raise err, w, []) /\
  handle_programs dry_run v w = (Raise err, w, []).
Proof.
  intros H err. rewrite <- isinstance_dict in H.
  repeat split; apply bind_raise; apply ensure_type_raise; exact H.
Qed.

(** C7: when each of the sections system, packages and programs is absent
    or an empty mapping, the run produces no event at all, leaves the
    world as it was and returns normally (exit status 0), in dry-run mode
    and in apply mode alike. *)
Theorem empty_sections_compile_to_nothing (dry_run : bool)
  (d : list (string * json)) (w : World) :
  section_empty d "system" ->
  section_empty d "packages" ->
  section_empty d "programs" ->
  main dry_run (JDict d) w = (Ok tt, w, []) /\
  exit_status (result (main dry_run (JDict d) w)) = 0.
Proof.
  intros Hs Hp Hg.
  assert (H : main dry_run (JDict d) w = (Ok tt, w, [])).
  { rewrite main_dispatch.
    rewrite (bind_pure _ _ tt) by (apply dispatch_empty; exact Hs).
    rewrite (bind_pure _ _ tt) by (apply dispatch_empty; exact Hp).
    apply dispatch_empty. exact Hg. }
  rewrite H. split; reflexivity.
Qed.

(** C4, as the code has it: over a top-level mapping the orchestrator
    runs the compilers of system, packages and programs in that order,
    each on the value of its key when that value is true in a condition;
    the compiler then requires a mapping and raises the TypeError
    otherwise; a key whose value is false in a condition (null, false, 0,
    an empty string, sequence or mapping) is passed over like a missing
    one; a key other than the three changes nothing, wherever it stands
    and whatever its value. *)
Theorem orchestrator_dispatches_truthy_sections (dry_run : bool)
  (d : list (string * json)) (w : World) :
  main dry_run (JDict d) w
  = bind (dispatch d "system" (handle_system dry_run))
      (fun _ => bind (dispatch d "packages" (handle_packages dry_run))
         (fun _ => dispatch d "programs" (handle_programs dry_run))) w /\
  (forall key compiler v w',
      dict_lookup key d = Some v -> truthy v = true ->
      dispatch d key compiler w' = compiler v w') /\
  (forall key compiler v w',
      dict_lookup key d = Some v -> truthy v = false ->
      dispatch d key compiler w' = (Ok tt, w', [])) /\
  (forall key compiler w',
      dict_lookup key d = None ->
      dispatch d key compiler w' = (Ok tt, w', [])) /\
  (forall v w',
      is_dict v = false ->
      let err := TypeError ("Expected dict, got " ++ type_name (type_of v)) in
      handle_system dry_run v w' = (Raise err, w', []) /\
      handle_packages dry_run v w' = (Raise err, w', []) /\
      handle_programs dry_run v w' = (Raise err, w', [])) /\
  (forall d1 d2 k v,
      d = (d1 ++ d2)%list -> known_key k = false ->
      main dry_run (JDict (d1 ++ (k, v) :: d2)) w = main dry_run (JDict d) w).
Proof.
  split; [apply main_dispatch|].
  split; [intros; apply dispatch_truthy; assumption|].
  split; [intros key compiler v w' H Hv;
          apply (dispatch_falsy d key compiler v w' H Hv)|].
  split; [intros key compiler w' H; apply dispatch_empty; left; exact H|].
  split; [intros v w' H; apply section_handlers_validate; exact H|].
  intros d1 d2 k v -> Hk. unfold known_key in Hk.
  apply orb_false_iff in Hk. destruct Hk as [Hk Hg].
  apply orb_false_iff in Hk. destruct Hk as [Hs Hp].
  rewrite String.eqb_sym in Hs, Hp, Hg.
  rewrite !main_dispatch, !dispatch_skip by assumption. reflexivity.
Qed.

Lemma handle_programs_on_mapping dry_run p w :
  handle_programs dry_run (JDict p) w = (Ok tt, w, []).
Proof.
  unfold handle_programs. rewrite (bind_pure _ _ tt) by reflexivity.
  rewrite section_last. unfold dispatch.
  destruct (dict_lookup "git" p) as [v|]; [|reflexivity].
  destruct (truthy v); reflexivity.
Qed.

(** C3, as the code has it: the [git] handler is empty.  On every value,
    mapping or not, it returns normally with no event: it validates
    nothing.  The mapping test of the programs domain is the one
    [handle_programs] makes on the programs section: a section that is not
    a mapping raises the TypeError of [ensure_type], as the system and
    packages sections do, and a section that is a mapping returns normally
    with no event whatever stands under [git], so that a [git] value that
    is not a mapping goes through the orchestrator's programs stage
    without an error. *)
Theorem programs_git_is_noop_without_validation (dry_run : bool)
  (config : json) (w : World) :
  handle_programs_git dry_run config w = (Ok tt, w, []) /\
  trace (handle_programs dry_run config w) = [] /\
  final (handle_programs dry_run config w) = w /\
  (is_dict config = false ->
   handle_programs dry_run config w
   = (Raise (TypeError ("Expected dict, got " ++ type_name (type_of config))),
      w, []) /\
   handle_programs dry_run config w = handle_system dry_run config w /\
   handle_programs dry_run config w = handle_packages dry_run config w) /\
  (is_dict config = true ->
   handle_programs dry_run config w = (Ok tt, w, [])) /\
  (forall (d p : list (string * json)) (git_config : json),
      dict_lookup "programs" d = Some (JDict p) ->
      dict_lookup "git" p = Some git_config ->
      handle_programs dry_run (JDict p) w = (Ok tt, w, []) /\
      dispatch d "programs" (handle_programs dry_run) w = (Ok tt, w, [])).
Proof.
  split; [reflexivity|].
  assert (Hgit : forall (d p : list (string * json)) (git_config : json),
             dict_lookup "programs" d = Some (JDict p) ->
             dict_lookup "git" p = Some git_config ->
             handle_programs dry_run (JDict p) w = (Ok tt, w, []) /\
             dispatch d "programs" (handle_programs dry_run) w
             = (Ok tt, w, [])).
  { intros d p git_config Hp _.
    split; [apply handle_programs_on_mapping|].
    unfold dispatch. rewrite Hp.
    destruct (truthy (JDict p)); [apply handle_programs_on_mapping|reflexivity]. }
  destruct (is_dict config) eqn:Hd.
  - assert (H : handle_programs dry_run config w = (Ok tt, w, [])).
    { destruct config; try discriminate Hd. apply handle_programs_on_mapping. }
    rewrite H. split; [reflexivity|]. split; [reflexivity|].
    split; [discriminate|]. split; [reflexivity|exact Hgit].
  - destruct (section_handlers_validate dry_run config w Hd) as (Hs & Hp & Hg).
    rewrite Hg, Hs, Hp. split; [reflexivity|]. split; [reflexivity|].
    split; [intros _; repeat split|]. split; [discriminate|exact Hgit].
Qed.

(** ** Further properties: shapes, unknown keys, the homebrew fields *)

Lemma isinstance_list (v : json) : isinstance v TList = is_list v.
Proof. destruct v; reflexivity. Qed.

Lemma ensure_type_expected (v : json) (t : pytype) (w : World) :
  isinstance v t = false -> ensure_type v t w = (Raise (expected t v), w, []).
Proof. apply ensure_type_raise. Qed.

(** X1: a root that is not a mapping (a sequence, a string, a number,
    null) makes [main] raise the TypeError of [ensure_type] before any
    section is looked at: nothing is printed and nothing is launched, in
    either mode. *)
Theorem root_must_be_mapping (dry_run : bool) (config : json) (w : World) :
  is_dict config = false ->
  main dry_run config w = (Raise (expected TDict config), w, []).
Proof.
  intros H. unfold main. apply bind_raise. apply ensure_type_expected.
  rewrite isinstance_dict. exact H.
Qed.

Lemma handle_system_dispatch dry_run d w :
  handle_system dry_run (JDict d) w
  = dispatch d "defaults" (handle_system_defaults dry_run) w.
Proof.
  unfold handle_system. rewrite (bind_pure _ _ tt) by reflexivity.
  apply section_last.
Qed.

Lemma handle_packages_dispatch dry_run d w :
  handle_packages dry_run (JDict d) w
  = dispatch d "homebrew" (handle_packages_homebrew dry_run) w.
Proof.
  unfold handle_packages. rewrite (bind_pure _ _ tt) by reflexivity.
  apply section_last.
Qed.

(** X2: inside the [system] and [packages] mappings only the keys
    [defaults] and [homebrew] count.  Any other key, with any value and at
    any place, changes nothing; a [defaults] or [homebrew] whose value is
    false in a condition is passed over without being validated; one whose
    value is true in a condition goes to its handler. *)
Theorem domain_handlers_read_one_key (dry_run : bool)
  (d1 d2 : list (string * json)) (k : string) (v : json) (w : World) :
  (String.eqb "defaults" k = false ->
   handle_system dry_run (JDict (d1 ++ (k, v) :: d2)) w
   = handle_system dry_run (JDict (d1 ++ d2)) w) /\
  (String.eqb "homebrew" k = false ->
   handle_packages dry_run (JDict (d1 ++ (k, v) :: d2)) w
   = handle_packages dry_run (JDict (d1 ++ d2)) w) /\
  (dict_lookup "defaults" d1 = Some v -> truthy v = false ->
   handle_system dry_run (JDict d1) w = (Ok tt, w, [])) /\
  (dict_lookup "homebrew" d1 = Some v -> truthy v = false ->
   handle_packages dry_run (JDict d1) w = (Ok tt, w, [])) /\
  (dict_lookup "defaults" d1 = Some v -> truthy v = true ->
   handle_system dry_run (JDict d1) w = handle_system_defaults dry_run v w) /\
  (dict_lookup "homebrew" d1 = Some v -> truthy v = true ->
   handle_packages dry_run (JDict d1) w
   = handle_packages_homebrew dry_run v w).
Proof.
  split; [intros H; rewrite !handle_system_dispatch, dispatch_skip by exact H;
          reflexivity|].
  split; [intros H; rewrite !handle_packages_dispatch, dispatch_skip by exact H;
          reflexivity|].
  split; [intros H Hv; rewrite handle_system_dispatch;
          apply (dispatch_falsy _ _ _ v); assumption|].
  split; [intros H Hv; rewrite handle_packages_dispatch;
          apply (dispatch_falsy _ _ _ v); assumption|].
  split; [intros H Hv; rewrite handle_system_dispatch;
          apply dispatch_truthy; assumption|].
  intros H Hv. rewrite handle_packages_dispatch.
  apply dispatch_truthy; assumption.
Qed.

Lemma homebrew_compile_raise dry_run config e w :
  compile_brewfile config w = (Raise e, w, []) ->
  handle_packages_homebrew dry_run config w = (Raise e, w, []).
Proof. intros H. unfold handle_packages_homebrew. apply bind_raise. exact H. Qed.

(** X3: the homebrew handler validates before it prints.  The fields are
    tested in the order taps, brews, casks, mas_apps, each read with its
    default when the key is missing; the first one of the wrong type (an
    explicit null included) raises [Expected list, got T] (for mas_apps
    [Expected dict, got T]), with nothing printed and nothing launched, in
    either mode. *)
Theorem homebrew_fields_are_validated_first (dry_run : bool)
  (d : list (string * json)) (w : World) :
  let taps := field_or d "taps" (JList []) in
  let brews := field_or d "brews" (JList []) in
  let casks := field_or d "casks" (JList []) in
  let mas_apps := field_or d "mas_apps" (JDict []) in
  (is_list taps = false ->
   handle_packages_homebrew dry_run (JDict d) w
   = (Raise (expected TList taps), w, [])) /\
  (is_list taps = true -> is_list brews = false ->
   handle_packages_homebrew dry_run (JDict d) w
   = (Raise (expected TList brews), w, [])) /\
  (is_list taps = true -> is_list brews = true -> is_list casks = false ->
   handle_packages_homebrew dry_run (JDict d) w
   = (Raise (expected TList casks), w, [])) /\
  (is_list taps = true -> is_list brews = true -> is_list casks = true ->
   is_dict mas_apps = false ->
   handle_packages_homebrew dry_run (JDict d) w
   = (Raise (expected TDict mas_apps), w, [])).
Proof.
  intros taps brews casks mas_apps.
  assert (Hget : forall key default w0,
             py_get (JDict d) key default w0
             = (Ok (field_or d key default), w0, []))
    by (intros; apply py_get_dict).
  repeat split; intros; apply homebrew_compile_raise; unfold compile_brewfile;
    rewrite (bind_pure _ _ tt) by reflexivity;
    rewrite (bind_pure _ _ taps) by apply Hget.
  - apply bind_raise. apply ensure_type_expected.
    rewrite isinstance_list. assumption.
  - rewrite (bind_pure _ _ tt)
      by (apply ensure_type_ok; rewrite isinstance_list; assumption).
    rewrite (bind_pure _ _ brews) by apply Hget.
    apply bind_raise. apply ensure_type_expected.
    rewrite isinstance_list. assumption.
  - rewrite (bind_pure _ _ tt)
      by (apply ensure_type_ok; rewrite isinstance_list; assumption).
    rewrite (bind_pure _ _ brews) by apply Hget.
    rewrite (bind_pure _ _ tt)
      by (apply ensure_type_ok; rewrite isinstance_list; assumption).
    rewrite (bind_pure _ _ casks) by apply Hget.
    apply bind_raise. apply ensure_type_expected.
    rewrite isinstance_list. assumption.
  - rewrite (bind_pure _ _ tt)
      by (apply ensure_type_ok; rewrite isinstance_list; assumption).
    rewrite (bind_pure _ _ brews) by apply Hget.
    rewrite (bind_pure _ _ tt)
      by (apply ensure_type_ok; rewrite isinstance_list; assumption).
    rewrite (bind_pure _ _ casks) by apply Hget.
    rewrite (bind_pure _ _ tt)
      by (apply ensure_type_ok; rewrite isinstance_list; assumption).
    rewrite (bind_pure _ _ mas_apps) by apply Hget.
    apply bind_raise. apply ensure_type_expected.
    rewrite isinstance_dict. assumption.
Qed.

(** X4: in apply mode, whatever the machine answers, a valid homebrew
    configuration launches the upgrade first, and either nothing more or
    the cleanup; the cleanup is launched exactly when the upgrade exited
    with status 0; an upgrade that cannot be started raises and leaves the
    cleanup out. *)
Theorem homebrew_launches_upgrade_then_cleanup (config : json)
  (brewfile : string) (w : World) :
  compile_brewfile config w = (Ok brewfile, w, []) ->
  let run := handle_packages_homebrew false config w in
  (launched (trace run) = [brew_upgrade] \/
   launched (trace run) = [brew_upgrade; brew_cleanup]) /\
  (launched (trace run) = [brew_upgrade; brew_cleanup] <->
   fst (spawn w brew_upgrade (Some brewfile)) = Exited 0) /\
  (fst (spawn w brew_upgrade (Some brewfile)) = StartFailed ->
   result run = Raise (OSError brew_upgrade)).
Proof.
  intros H run. unfold run. rewrite (homebrew_apply _ _ _ H). cbv zeta.
  unfold bind, subprocess_run, result, final, trace. cbn [fst snd].
  destruct (spawn w brew_upgrade (Some brewfile)) as [[rc|] w1]; cbn [fst].
  - destruct (Z.eqb_spec rc 0) as [->|Hrc]; cbn [negb andb].
    + destruct (spawn w1 brew_cleanup None) as [[rc2|] w2]; cbn [launched].
      * split; [right; reflexivity|]. split; [tauto|discriminate].
      * split; [right; reflexivity|]. split; [tauto|discriminate].
    + cbn [launched brewfile_report].
      split; [left; reflexivity|]. split; [|discriminate].
      split; [discriminate|]. intros E. injection E as E. contradiction.
  - cbn [launched brewfile_report].
    split; [left; reflexivity|]. split; [|reflexivity].
    split; discriminate.
Qed.

(** X9: a homebrew mapping that is empty is passed over by
    [handle_packages]: no event at all.  A homebrew mapping whose four
    fields are missing or empty compiles to the empty Brewfile; given to
    the handler in apply mode, the launches succeeding, it still runs the
    upgrade on an empty standard input and then the forced cleanup. *)
Theorem empty_brewfile_is_still_applied (dry_run : bool)
  (d h : list (string * json)) (w : World) :
  (dict_lookup "homebrew" d = Some (JDict []) ->
   handle_packages dry_run (JDict d) w = (Ok tt, w, [])) /\
  (field_or h "taps" (JList []) = JList [] ->
   field_or h "brews" (JList []) = JList [] ->
   field_or h "casks" (JList []) = JList [] ->
   field_or h "mas_apps" (JDict []) = JDict [] ->
   compile_brewfile (JDict h) w = (Ok "", w, []) /\
   (always_succeeds ->
    result (handle_packages_homebrew false (JDict h) w) = Ok tt /\
    trace (handle_packages_homebrew false (JDict h) w)
    = [brewfile_report ""; Run brew_upgrade (Some "") true;
       Run brew_cleanup None false])).
Proof.
  split.
  - intros H. rewrite handle_packages_dispatch.
    apply (dispatch_falsy _ _ _ (JDict [])); [exact H|reflexivity].
  - intros Ht Hb Hc Hm.
    assert (H : compile_brewfile (JDict h) w = (Ok "", w, []))
      by (rewrite (compile_brewfile_ok h _ _ _ _ w Ht Hb Hc Hm); reflexivity).
    split; [exact H|]. intros Hspawn.
    rewrite (homebrew_apply _ _ _ H). cbv zeta.
    rewrite (bind_ok _ _ tt w _ _
               (subprocess_run_exit0 _ _ _ _ (Hspawn _ _ _))).
    rewrite (subprocess_run_exit0 _ _ _ _ (Hspawn _ _ _)).
    split; reflexivity.
Qed.

(** ** Further properties: the write loop *)

Lemma bind_assoc {A B C : Type} (m : M A) (k : A -> M B) (h : B -> M C) w :
  bind (bind m k) h w = bind m (fun a => bind (k a) h) w.
Proof.
  unfold bind. destruct (m w) as [[[a|e] w1] t1]; [|reflexivity].
  destruct (k a w1) as [[[b|e] w2] t2]; [|reflexivity].
  destruct (h b w2) as [[r w3] t3]. rewrite app_assoc. reflexivity.
Qed.

Lemma bind_stops (m : M unit) (k : unit -> M unit) (e : exn) w :
  result (m w) = Raise e -> bind m k w = m w.
Proof.
  unfold bind, result. destruct (m w) as [[[a|e'] w1] t1]; cbn [fst].
  - discriminate.
  - reflexivity.
Qed.

(** The loop over a concatenation is the loop over the first part, then
    the loop over the second. *)
Lemma write_entries_app dry_run pre post : forall w,
  write_entries dry_run (pre ++ post) w
  = bind (write_entries dry_run pre) (fun _ => write_entries dry_run post) w.
Proof.
  induction pre as [|[[namespace key] value] pre IH]; intros w.
  - cbn [app write_entries]. rewrite (bind_pure _ _ tt) by reflexivity.
    reflexivity.
  - cbn [app write_entries]. rewrite bind_assoc.
    apply bind_ext. intros command w1. rewrite bind_assoc.
    apply bind_ext. intros [] w2. rewrite bind_assoc.
    apply bind_ext. intros [] w3. apply IH.
Qed.

Lemma entries_of_app d1 d2 :
  entries_of (d1 ++ d2) = (entries_of d1 ++ entries_of d2)%list.
Proof.
  induction d1 as [|[namespace settings] d1 IH]; [reflexivity|].
  cbn [app entries_of]. destruct settings; try exact IH.
  rewrite IH, app_assoc. reflexivity.
Qed.

(** X5: over a mapping of mappings, the handler run on two groups of
    namespaces put one after the other is the handler on the first group
    followed, from the world it leaves, by the handler on the second.  So
    once the first group raises, what follows it changes nothing: the
    outcome, the world and the trace are those of the first group alone. *)
Theorem namespaces_run_in_sequence (dry_run : bool)
  (d1 d2 : list (string * json)) (w : World) :
  forallb is_dict (map snd d1) = true ->
  forallb is_dict (map snd d2) = true ->
  handle_system_defaults dry_run (JDict (d1 ++ d2)) w
  = bind (handle_system_defaults dry_run (JDict d1))
      (fun _ => handle_system_defaults dry_run (JDict d2)) w /\
  (forall e,
      result (handle_system_defaults dry_run (JDict d1) w) = Raise e ->
      handle_system_defaults dry_run (JDict (d1 ++ d2)) w
      = handle_system_defaults dry_run (JDict d1) w).
Proof.
  intros H1 H2.
  assert (H12 : forallb is_dict (map snd (d1 ++ d2)) = true)
    by (rewrite map_app, forallb_app, H1, H2; reflexivity).
  assert (Hseq : handle_system_defaults dry_run (JDict (d1 ++ d2)) w
                 = bind (handle_system_defaults dry_run (JDict d1))
                     (fun _ => handle_system_defaults dry_run (JDict d2)) w).
  { rewrite handle_system_defaults_entries by exact H12.
    rewrite entries_of_app, write_entries_app.
    unfold bind at 1 2.
    rewrite (handle_system_defaults_entries _ d1) by exact H1.
    destruct (write_entries dry_run (entries_of d1) w) as [[[[]|e] w1] t1];
      [|reflexivity].
    rewrite (handle_system_defaults_entries _ d2) by exact H2.
    reflexivity. }
  split; [exact Hseq|].
  intros e He. rewrite Hseq. apply (bind_stops _ _ e). exact He.
Qed.

(** X6: the first hard failure halts the loop.  In apply mode, when the
    entries before an entry of a supported type have run through and the
    launch of that entry exits with a status other than 0, the handler
    raises CalledProcessError with that status and that command; the trace
    is that of the earlier entries followed by the description and the
    launch of the failing one, and no later entry is described or
    launched.  Nothing already written is undone. *)
Theorem failing_launch_halts_the_loop (d : list (string * json))
  (pre post : list (string * string * json)) (namespace key : string)
  (value : json) (w w1 w2 : World) (t1 : list event) (rc : Z) :
  forallb is_dict (map snd d) = true ->
  entries_of d = (pre ++ (namespace, key, value) :: post)%list ->
  supported value = true ->
  write_entries false pre w = (Ok tt, w1, t1) ->
  spawn w1 (spec_command (namespace, key, value)) None = (Exited rc, w2) ->
  rc <> 0 ->
  handle_system_defaults false (JDict d) w
  = (Raise (CalledProcessError rc (spec_command (namespace, key, value))),
     w2, (t1 ++ applied (namespace, key, value))%list).
Proof.
  intros Hd He Hv Hpre Hsp Hrc.
  rewrite handle_system_defaults_entries by exact Hd.
  rewrite He, write_entries_app. rewrite (bind_ok _ _ tt w w1 t1 Hpre).
  cbn [write_entries].
  rewrite (bind_pure _ _ (spec_command (namespace, key, value)))
    by (apply defaults_command_ok; exact Hv).
  rewrite (bind_ok _ _ tt w1 w1 [describe (namespace, key, value)])
    by reflexivity.
  assert (Hrun : subprocess_run (spec_command (namespace, key, value)) None
                   true w1
                 = (Raise (CalledProcessError rc
                             (spec_command (namespace, key, value))),
                    w2, [Run (spec_command (namespace, key, value)) None true])).
  { unfold subprocess_run. rewrite Hsp.
    apply Z.eqb_neq in Hrc. rewrite Hrc. reflexivity. }
  rewrite (bind_raise _ _ _ _ _ _ Hrun). reflexivity.
Qed.

Lemma firstn_forallb {A : Type} (f : A -> bool) k l :
  forallb f l = true -> forallb f (firstn k l) = true.
Proof.
  revert k. induction l as [|a l IH]; intros [|k] H; try reflexivity.
  cbn [forallb] in H. apply andb_true_iff in H. destruct H as [Ha Hl].
  cbn [firstn forallb]. rewrite Ha, IH by exact Hl. reflexivity.
Qed.

Lemma subprocess_run_trace cmd input check w :
  trace (subprocess_run cmd input check w) = [Run cmd input check].
Proof.
  unfold subprocess_run, trace.
  destruct (spawn w cmd input) as [[rc|] w'];
    [destruct (check && negb (rc =? 0))|]; reflexivity.
Qed.

Lemma write_entries_prefix dry_run entries : forall w,
  exists k : nat,
    (k <= List.length entries)%nat /\
    forallb (fun e => supported (snd e)) (firstn k entries) = true /\
    trace (write_entries dry_run entries w) = plan_prefix dry_run k entries /\
    (result (write_entries dry_run entries w) = Ok tt ->
     k = List.length entries).
Proof.
  induction entries as [|[[namespace key] value] rest IH]; intros w.
  - exists O. split; [apply Nat.le_0_l|]. split; [reflexivity|].
    split; [destruct dry_run; reflexivity|]. intros _. reflexivity.
  - destruct (supported value) eqn:Hv.
    + cbn [write_entries].
      rewrite (bind_pure _ _ (spec_command (namespace, key, value)))
        by (apply defaults_command_ok; exact Hv).
      rewrite (bind_ok _ _ tt w w [describe (namespace, key, value)])
        by reflexivity.
      destruct dry_run.
      * rewrite (bind_pure _ _ tt) by reflexivity.
        destruct (IH w) as (k & Hk & Hs & Ht & Hr). exists (S k).
        unfold result, trace, plan_prefix in *.
        cbn [fst snd firstn List.length forallb map app].
        rewrite Hv, Hs, Ht.
        split; [apply le_n_S; exact Hk|]. split; [reflexivity|].
        split; [reflexivity|]. intros E. rewrite (Hr E). reflexivity.
      * pose proof (subprocess_run_trace
                      (spec_command (namespace, key, value)) None true w)
          as Ht1.
        destruct (subprocess_run (spec_command (namespace, key, value)) None
                    true w) as [[[[]|e] w1] t1] eqn:Hrun.
        -- unfold trace in Ht1. cbn [snd] in Ht1. subst t1.
           rewrite (bind_ok _ _ tt w w1 _ Hrun).
           destruct (IH w1) as (k & Hk & Hs & Ht & Hr). exists (S k).
           destruct (write_entries false rest w1) as [[r w2] t2].
           unfold result, trace, plan_prefix in *.
           cbn [fst snd firstn List.length forallb flat_map applied app] in *.
           rewrite Hv, Hs, Ht.
           split; [apply le_n_S; exact Hk|]. split; [reflexivity|].
           split; [reflexivity|]. intros E. rewrite (Hr E). reflexivity.
        -- unfold trace in Ht1. cbn [snd] in Ht1. subst t1.
           rewrite (bind_raise _ _ _ _ _ _ Hrun).
           exists 1%nat. unfold result, trace, plan_prefix.
           cbn [fst snd firstn List.length forallb flat_map applied app].
           rewrite Hv.
           split; [apply le_n_S, Nat.le_0_l|]. split; [reflexivity|].
           split; [reflexivity|]. discriminate.
    + exists O. cbn [write_entries].
      rewrite (bind_raise _ _ _ _ _ _
                 (defaults_command_raise namespace key value w Hv)).
      unfold result, trace, plan_prefix. cbn [fst snd firstn List.length].
      split; [apply Nat.le_0_l|]. split; [reflexivity|].
      split; [destruct dry_run; reflexivity|]. discriminate.
Qed.

(** X7: whatever the machine answers and whatever the values are, the
    handler only ever performs a prefix of its plan, in iteration order.
    Over a mapping of mappings there is a number [k] of entries, all of
    supported types, such that the trace is the descriptions of the first
    [k] entries (dry-run) or, for each of them in turn, its description
    immediately followed by its launch (apply mode); a normal return means
    that [k] is the number of all entries. *)
Theorem defaults_trace_is_a_plan_prefix (dry_run : bool)
  (d : list (string * json)) (w : World) :
  forallb is_dict (map snd d) = true ->
  exists k : nat,
    (k <= List.length (entries_of d))%nat /\
    forallb (fun e => supported (snd e)) (firstn k (entries_of d)) = true /\
    trace (handle_system_defaults dry_run (JDict d) w)
    = plan_prefix dry_run k (entries_of d) /\
    (result (handle_system_defaults dry_run (JDict d) w) = Ok tt ->
     k = List.length (entries_of d)).
Proof.
  intros Hd. rewrite handle_system_defaults_entries by exact Hd.
  apply write_entries_prefix.
Qed.

(** X8: [main] stops at the first domain that raises.  When the system
    stage raises, the outcome of [main] is the outcome of that stage: the
    packages and programs sections are not even validated.  When the
    system stage returns and the packages stage raises, [main] raises that
    exception, and its trace is the events of the system stage followed by
    those of the packages stage. *)
Theorem main_stops_at_the_first_failing_domain (dry_run : bool)
  (d : list (string * json)) (w : World) (e : exn) :
  (result (dispatch d "system" (handle_system dry_run) w) = Raise e ->
   main dry_run (JDict d) w = dispatch d "system" (handle_system dry_run) w) /\
  (forall w1 t1,
      dispatch d "system" (handle_system dry_run) w = (Ok tt, w1, t1) ->
      result (dispatch d "packages" (handle_packages dry_run) w1) = Raise e ->
      main dry_run (JDict d) w
      = (Raise e,
         final (dispatch d "packages" (handle_packages dry_run) w1),
         (t1 ++ trace (dispatch d "packages" (handle_packages dry_run) w1))%list)).
Proof.
  split.
  - intros H. rewrite main_dispatch. apply (bind_stops _ _ e). exact H.
  - intros w1 t1 Hs Hp. rewrite main_dispatch.
    rewrite (bind_ok _ _ tt w w1 t1 Hs).
    rewrite (bind_stops _ _ e) by exact Hp.
    rewrite Hp. reflexivity.
Qed.

(** ** Further properties: a dry run announces the real run *)

Lemma printed_app t1 t2 :
  printed (t1 ++ t2) = (printed t1 ++ printed t2)%list.
Proof.
  induction t1 as [|[s|cmd input check] t1 IH]; cbn [app printed];
    [reflexivity|rewrite IH; reflexivity|exact IH].
Qed.

Lemma previews_bind {A B : Type} (m1 m2 : M A) (k1 k2 : A -> M B) :
  previews m1 m2 -> (forall a, previews (k1 a) (k2 a)) ->
  previews (bind m1 k1) (bind m2 k2).
Proof.
  intros Hm Hk w w'. destruct (Hm w w') as [Hr Ht]. unfold bind.
  destruct (m1 w) as [[[a|e] w1] t1], (m2 w') as [[[a'|e'] w1'] t1'];
    unfold result, trace in *; cbn [fst snd] in *; try discriminate Hr.
  - injection Hr as ->. destruct (Hk a' w1 w1') as [Hr2 Ht2].
    destruct (k1 a' w1) as [[r2 w2] t2], (k2 a' w1') as [[r2' w2'] t2'].
    unfold result, trace in *. cbn [fst snd] in *.
    rewrite !printed_app, Ht, Ht2.
    split; [exact Hr2|reflexivity].
  - injection Hr as ->. split; [reflexivity|exact Ht].
Qed.

(** A computation whose result and events do not depend on the world
    announces itself. *)
Lemma previews_const {A : Type} (m : M A) (r : res A) (t : list event) :
  (forall w, m w = (r, w, t)) -> previews m m.
Proof. intros H w w'. rewrite (H w), (H w'). split; reflexivity. Qed.

Lemma previews_ret {A : Type} (a : A) : previews (ret a) (ret a).
Proof. apply (previews_const _ (Ok a) []). reflexivity. Qed.

Lemma previews_raise {A : Type} (e : exn) : previews (@raise A e) (raise e).
Proof. apply (previews_const _ (Raise e) []). reflexivity. Qed.

Lemma previews_print args : previews (print args) (print args).
Proof.
  apply (previews_const _ (Ok tt) [Print (join " " args ++ nl)]). reflexivity.
Qed.

Lemma previews_ensure_type v t : previews (ensure_type v t) (ensure_type v t).
Proof.
  unfold ensure_type. destruct (isinstance v t);
    [apply previews_ret|apply previews_raise].
Qed.

Lemma previews_py_get config key default :
  previews (py_get config key default) (py_get config key default).
Proof.
  destruct config; try apply previews_raise.
  cbn [py_get]. destruct (dict_lookup key d); apply previews_ret.
Qed.

Lemma previews_py_items config : previews (py_items config) (py_items config).
Proof.
  destruct config; try apply previews_raise. apply previews_ret.
Qed.

Lemma previews_py_iter v : previews (py_iter v) (py_iter v).
Proof.
  destruct v; try apply previews_raise; apply previews_ret.
Qed.

Create HintDb preview.
#[local] Hint Resolve previews_ret previews_raise previews_print
  previews_ensure_type previews_py_get previews_py_items
  previews_py_iter : preview.

Ltac preview :=
  repeat match goal with
    | |- previews (bind _ _) (bind _ _) => apply previews_bind; [|intro]
    | |- previews (if ?b then _ else _) (if ?b then _ else _) => destruct b
    | |- previews _ _ => solve [auto with preview]
    end.

Lemma previews_collect_entries items : forall entries,
  previews (collect_entries entries items) (collect_entries entries items).
Proof.
  induction items as [|[namespace settings] rest IH]; intros entries;
    cbn [collect_entries]; preview.
Qed.

Lemma previews_defaults_command namespace key value :
  previews (defaults_command namespace key value)
    (defaults_command namespace key value).
Proof. unfold defaults_command. cbv zeta. preview. Qed.

Lemma previews_compile_brewfile config :
  previews (compile_brewfile config) (compile_brewfile config).
Proof. unfold compile_brewfile. preview. Qed.

Section Succeeding.

Hypothesis Hspawn : always_succeeds.

Lemma previews_launch cmd input check :
  previews (subprocess_run cmd input check) (ret tt).
Proof.
  intros w w'. rewrite subprocess_run_exit0 by apply Hspawn.
  split; reflexivity.
Qed.

Lemma previews_two_launches cmd1 input1 check1 cmd2 input2 check2 :
  previews (bind (subprocess_run cmd1 input1 check1)
              (fun _ => subprocess_run cmd2 input2 check2)) (ret tt).
Proof.
  intros w w'.
  rewrite (bind_ok _ _ tt w _ _ (subprocess_run_exit0 _ _ _ _ (Hspawn _ _ _))).
  rewrite subprocess_run_exit0 by apply Hspawn. split; reflexivity.
Qed.

Lemma previews_write_entries entries :
  previews (write_entries false entries) (write_entries true entries).
Proof.
  induction entries as [|[[namespace key] value] rest IH];
    cbn [write_entries]; preview.
  - apply previews_defaults_command.
  - apply previews_launch.
Qed.

Lemma previews_system_defaults config :
  previews (handle_system_defaults false config)
    (handle_system_defaults true config).
Proof.
  unfold handle_system_defaults. preview.
  - apply previews_collect_entries.
  - apply previews_write_entries.
Qed.

Lemma previews_packages_homebrew config :
  previews (handle_packages_homebrew false config)
    (handle_packages_homebrew true config).
Proof.
  unfold handle_packages_homebrew.
  apply previews_bind; [apply previews_compile_brewfile|intros brewfile].
  apply previews_bind; [apply previews_print|intros _].
  apply previews_two_launches.
Qed.

Lemma previews_system config :
  previews (handle_system false config) (handle_system true config).
Proof. unfold handle_system. preview. apply previews_system_defaults. Qed.

Lemma previews_packages config :
  previews (handle_packages false config) (handle_packages true config).
Proof. unfold handle_packages. preview. apply previews_packages_homebrew. Qed.

Lemma previews_programs config :
  previews (handle_programs false config) (handle_programs true config).
Proof. unfold handle_programs, handle_programs_git. preview. Qed.

Lemma previews_main config : previews (main false config) (main true config).
Proof.
  unfold main. preview;
    first [apply previews_system|apply previews_packages
          |apply previews_programs].
Qed.

End Succeeding.

(** X10: a dry run is an exact preview of a run whose launches all
    succeed.  For every configuration, valid or not, and from any two
    worlds, apply mode ends as dry-run mode does (the same normal return
    or the same exception) and prints the same texts in the same order;
    the two runs differ by the launches only. *)
Theorem dry_run_is_an_exact_preview (config : json) (w w' : World) :
  always_succeeds ->
  result (main false config w) = result (main true config w') /\
  printed (trace (main false config w))
  = printed (trace (main true config w')).
Proof. intros Hspawn. apply (previews_main Hspawn). Qed.

(** ** Further properties: the characters of the Brewfile *)

Lemma escape_char_printable (c : ascii) :
  printable_ascii (escape_char c) = true.
Proof. destruct c as [[] [] [] [] [] [] [] []]; reflexivity. Qed.

Lemma printable_app (a b : string) :
  printable_ascii (a ++ b) = printable_ascii a && printable_ascii b.
Proof.
  unfold printable_ascii. induction a as [|c a IH]; [reflexivity|].
  cbn [append list_ascii_of_string forallb]. rewrite IH, andb_assoc.
  reflexivity.
Qed.

Lemma dumps_str_printable (s : string) : printable_ascii (dumps_str s) = true.
Proof.
  unfold dumps_str.
  change (String dquote (escape_string s ++ String dquote ""))
    with (String dquote "" ++ (escape_string s ++ String dquote "")).
  rewrite !printable_app.
  replace (printable_ascii (escape_string s)) with true; [reflexivity|].
  induction s as [|c s IH]; [reflexivity|].
  cbn [escape_string]. rewrite printable_app, escape_char_printable, <- IH.
  reflexivity.
Qed.

Lemma string_of_uint_printable (u : Decimal.uint) :
  printable_ascii (NilEmpty.string_of_uint u) = true.
Proof.
  induction u; cbn [NilEmpty.string_of_uint]; try reflexivity;
    match goal with
    | |- printable_ascii (String ?c ?s) = true =>
        change (String c s) with (String c "" ++ s);
        rewrite printable_app, IHu; reflexivity
    end.
Qed.

Lemma str_int_printable (n : Z) : printable_ascii (str_int n) = true.
Proof.
  unfold str_int, NilZero.string_of_int.
  destruct (Z.to_int n) as [u|u]; unfold NilZero.string_of_uint.
  - destruct u; try reflexivity; apply string_of_uint_printable.
  - match goal with
    | |- printable_ascii (String ?c ?s) = true =>
        change (String c s) with (String c "" ++ s); rewrite printable_app
    end.
    destruct u; try reflexivity; rewrite string_of_uint_printable;
      reflexivity.
Qed.

(** X11: whatever characters the names hold (quotes, backslashes, control
    characters, characters above 126), every line built for a string tap,
    brew or cask, and for a store application with an integer identifier,
    is made of printable ASCII characters only: the Brewfile of such a
    configuration holds nothing but printable ASCII and the newlines that
    join its lines. *)
Theorem brewfile_lines_are_printable_ascii (taps brews casks : list string)
  (mas_apps : list (string * Z)) :
  forallb printable_ascii
    (brewfile_lines (map JStr taps) (map JStr brews) (map JStr casks)
       (map (fun app => (fst app, JInt (snd app))) mas_apps)) = true.
Proof.
  unfold brewfile_lines. rewrite !forallb_app, !map_map.
  assert (Hall : forall (A : Type) (f : A -> string) (l : list A),
             (forall a, printable_ascii (f a) = true) ->
             forallb printable_ascii (map f l) = true).
  { intros A f l H. induction l as [|a l IH]; [reflexivity|].
    cbn [map forallb]. rewrite H, IH. reflexivity. }
  rewrite !Hall; try reflexivity.
  - intros [name n]. unfold mas_line. cbn [fst snd json_dumps].
    rewrite !printable_app, dumps_str_printable, str_int_printable.
    reflexivity.
  - intros name. unfold cask_line. cbn [json_dumps].
    rewrite printable_app, dumps_str_printable. reflexivity.
  - intros name. unfold brew_line. cbn [json_dumps].
    rewrite printable_app, dumps_str_printable. reflexivity.
  - intros name. unfold tap_line. cbn [json_dumps].
    rewrite printable_app, dumps_str_printable. reflexivity.
Qed.

End Blueprint.

(** ** The theorems at concrete configurations *)

Lemma spawn_ok_always_succeeds : always_succeeds nat spawn_ok.
Proof. intros w cmd input. reflexivity. Qed.

(** The specification's homebrew example compiles to its three lines. *)
Lemma brewfile_is_spec_manifest_witness :
  field_or homebrew_example_items "casks" (JList []) = JList (map JStr []) /\
  compile_brewfile repr_sample nat homebrew_example 0%nat
  = (Ok homebrew_example_manifest, 0%nat, []) /\
  handle_packages_homebrew repr_sample nat spawn_ok true homebrew_example 0%nat
  = (Ok tt, 0%nat, [brewfile_report homebrew_example_manifest]).
Proof.
  split; [reflexivity|].
  pose proof (brewfile_is_spec_manifest repr_sample nat spawn_ok
                homebrew_example_items ["a/b"] ["x"] [] [("Foo", NInt 123)]
                0%nat eq_refl eq_refl eq_refl eq_refl) as H.
  cbv zeta in H. destruct H as (Hc & Hd & _).
  split; [exact Hc|exact Hd].
Defined.

(** Four entries, one of each supported kind, in apply mode. *)
Lemma defaults_value_args_witness :
  forallb is_dict (map snd defaults_example_items) = true /\
  launched
    (trace (handle_system_defaults repr_sample nat spawn_ok false
              (JDict defaults_example_items) 0%nat))
  = [["defaults"; "write"; "com.example.app"; "flag"; "-bool"; "true"];
     ["defaults"; "write"; "com.example.app"; "ratio"; "3.5"];
     ["defaults"; "write"; "com.example.dock"; "size"; "48"];
     ["defaults"; "write"; "com.example.dock"; "side"; "left"]].
Proof.
  split; [reflexivity|].
  pose proof (defaults_value_args repr_sample nat spawn_ok "" "" 0%nat) as H.
  destruct H as (_ & _ & _ & _ & H & _).
  destruct (H defaults_example_items eq_refl eq_refl) as (_ & Happly).
  destruct (Happly spawn_ok_always_succeeds) as (_ & _ & Hl).
  exact Hl.
Defined.

(** A sequence as the second of three values: the first entry is described
    (and launched in apply mode), then the TypeError. *)
Lemma unsupported_value_aborts_witness :
  supported (JList [JInt 2]) = false /\
  handle_system_defaults repr_sample nat spawn_ok true
    (JDict defaults_unsupported_items) 0%nat
  = (Raise (TypeError "Unsupported value type: list"), 0%nat,
     [Print (".system.defaults: executing defaults write com.example.app first 1"
               ++ nl)]) /\
  trace (handle_system_defaults repr_sample nat spawn_ok false
           (JDict defaults_unsupported_items) 0%nat)
  = [Print (".system.defaults: executing defaults write com.example.app first 1"
              ++ nl);
     Run ["defaults"; "write"; "com.example.app"; "first"; "1"] None true].
Proof.
  split; [reflexivity|].
  pose proof (unsupported_value_aborts repr_sample nat spawn_ok false
                defaults_unsupported_items
                [("com.example.app", "first", JInt 1)]
                [("com.example.app", "last", JInt 3)]
                "com.example.app" "bad" (JList [JInt 2]) 0%nat
                eq_refl eq_refl eq_refl eq_refl) as H.
  cbv zeta in H. destruct H as (_ & Hdry & Happly).
  split; [exact Hdry|].
  exact (proj2 (Happly spawn_ok_always_succeeds)).
Defined.

(** A number where the second namespace should be a mapping: the error,
    and not one event, although the first namespace is well formed. *)
Lemma namespace_shape_error_is_atomic_witness :
  In ("com.example.dock", JInt 5) defaults_misshapen_items /\
  exists v : json,
    In v (map snd defaults_misshapen_items) /\ is_dict v = false /\
    handle_system_defaults repr_sample nat spawn_ok false
      (JDict defaults_misshapen_items) 0%nat
    = (Raise (TypeError ("Expected dict, got " ++ type_name (type_of v))),
       0%nat, []).
Proof.
  assert (Hin : In ("com.example.dock", JInt 5) defaults_misshapen_items)
    by (right; left; reflexivity).
  split; [exact Hin|].
  exact (namespace_shape_error_is_atomic repr_sample nat spawn_ok false
           defaults_misshapen_items "com.example.dock" (JInt 5) 0%nat
           Hin eq_refl).
Defined.

(** A string as store identifier compiles, quoted. *)
Lemma mas_ids_are_not_type_checked_witness :
  compile_brewfile repr_sample nat homebrew_string_id 0%nat
  = (Ok ("mas " ++ quoted "Foo" ++ ", id: " ++ quoted "123"), 0%nat, []).
Proof.
  exact (proj1 (mas_ids_are_not_type_checked repr_sample nat
                  [("mas_apps", JDict [("Foo", JStr "123")])]
                  [] [] [] [("Foo", JStr "123")] 0%nat
                  eq_refl eq_refl eq_refl eq_refl)).
Defined.

(** The cleanup exits with status 1 after a successful upgrade: the
    handler returns normally. *)
Lemma cleanup_after_upgrade_witness :
  spawn_cleanup_exit1 1%nat brew_cleanup None = (Exited 1, 2%nat) /\
  handle_packages_homebrew repr_sample nat spawn_cleanup_exit1 false
    homebrew_example 0%nat
  = (Ok tt, 2%nat,
     [brewfile_report homebrew_example_manifest;
      Run brew_upgrade (Some homebrew_example_manifest) true;
      Run brew_cleanup None false]).
Proof.
  split; [reflexivity|].
  pose proof (cleanup_after_upgrade repr_sample nat spawn_cleanup_exit1
                homebrew_example homebrew_example_manifest 0%nat eq_refl)
    as H.
  destruct H as (_ & H & _).
  destruct (H 1%nat eq_refl) as (Hexit & _).
  exact (Hexit 1 2%nat eq_refl).
Defined.

(** C8 as stated fails: the upgrade has succeeded, the cleanup cannot be
    started, and the exception of the launch ends the handler and the run
    (exit status 1). *)
Lemma cleanup_start_failure_aborts :
  spawn_second_missing 0%nat brew_upgrade (Some homebrew_example_manifest)
  = (Exited 0, 1%nat) /\
  handle_packages_homebrew repr_sample nat spawn_second_missing false
    homebrew_example 0%nat
  = (Raise (OSError brew_cleanup), 2%nat,
     [brewfile_report homebrew_example_manifest;
      Run brew_upgrade (Some homebrew_example_manifest) true;
      Run brew_cleanup None false]) /\
  exit_status
    (result (main repr_sample nat spawn_second_missing false
               config_homebrew_only 0%nat)) = 1.
Proof. repeat split; vm_compute; reflexivity. Qed.

(** An empty [system] mapping and a key of no domain: nothing happens. *)
Lemma empty_sections_compile_to_nothing_witness :
  section_empty [("system", JDict []); ("fonts", JInt 1)] "system" /\
  main repr_sample nat spawn_ok false
    (JDict [("system", JDict []); ("fonts", JInt 1)]) 0%nat
  = (Ok tt, 0%nat, []).
Proof.
  assert (Hs : section_empty [("system", JDict []); ("fonts", JInt 1)] "system")
    by (right; reflexivity).
  split; [exact Hs|].
  exact (proj1 (empty_sections_compile_to_nothing repr_sample nat spawn_ok
                  false [("system", JDict []); ("fonts", JInt 1)] 0%nat
                  Hs (or_introl eq_refl) (or_introl eq_refl))).
Defined.

(** C4 as stated fails: [system] is present, its value is a sequence and
    not a mapping, and the run ends normally with no TypeError. *)
Lemma falsy_section_is_not_validated :
  dict_lookup "system" [("system", JList [])] = Some (JList []) /\
  is_dict (JList []) = false /\
  main repr_sample nat spawn_ok false config_system_empty_list 0%nat
  = (Ok tt, 0%nat, []).
Proof. repeat split. Qed.

(** A key of no domain before the homebrew section changes nothing, and a
    [system] that is an empty sequence is passed over. *)
Lemma orchestrator_dispatches_truthy_sections_witness :
  known_key "fonts" = false /\
  main repr_sample nat spawn_ok true
    (JDict [("fonts", JList [JInt 1]);
            ("packages", JDict [("homebrew", homebrew_example)])]) 0%nat
  = main repr_sample nat spawn_ok true config_homebrew_only 0%nat /\
  dispatch nat [("system", JList [])] "system"
    (handle_system repr_sample nat spawn_ok true) 0%nat
  = (Ok tt, 0%nat, []).
Proof.
  split; [reflexivity|].
  pose proof (orchestrator_dispatches_truthy_sections repr_sample nat spawn_ok
                true [("packages", JDict [("homebrew", homebrew_example)])]
                0%nat) as H.
  destruct H as (_ & _ & _ & _ & _ & Hskip).
  split.
  - exact (Hskip [] [("packages", JDict [("homebrew", homebrew_example)])]
             "fonts" (JList [JInt 1]) eq_refl eq_refl).
  - pose proof (orchestrator_dispatches_truthy_sections repr_sample nat
                  spawn_ok true [("system", JList [])] 0%nat) as H.
    destruct H as (_ & _ & Hfalsy & _).
    exact (Hfalsy "system" (handle_system repr_sample nat spawn_ok true)
             (JList []) 0%nat eq_refl eq_refl).
Defined.

(** A sequence given as the programs section is refused; a sequence
    given under [git] is not. *)
Lemma programs_git_is_noop_without_validation_witness :
  is_dict (JList [JInt 1]) = false /\
  handle_programs nat true (JList [JInt 1]) 0%nat
  = (Raise (TypeError "Expected dict, got list"), 0%nat, []) /\
  dict_lookup "git" [("git", JList [JInt 1; JInt 2])]
  = Some (JList [JInt 1; JInt 2]) /\
  dispatch nat [("programs", JDict [("git", JList [JInt 1; JInt 2])])]
    "programs" (handle_programs nat true) 0%nat
  = (Ok tt, 0%nat, []).
Proof.
  split; [reflexivity|].
  pose proof (programs_git_is_noop_without_validation repr_sample nat spawn_ok
                true (JList [JInt 1]) 0%nat) as H.
  destruct H as (_ & _ & _ & Hbad & _ & Hgit).
  split; [exact (proj1 (Hbad eq_refl))|]. split; [reflexivity|].
  exact (proj2 (Hgit [("programs", JDict [("git", JList [JInt 1; JInt 2])])]
                  [("git", JList [JInt 1; JInt 2])] (JList [JInt 1; JInt 2])
                  eq_refl eq_refl)).
Defined.

(** C3 as stated fails: the value under [git] is a sequence and not a
    mapping, and neither the [git] handler nor the whole run raises, where
    the handlers of [defaults] and [homebrew] raise on the same value. *)
Lemma git_value_is_not_validated :
  is_dict (JList [JInt 1; JInt 2]) = false /\
  handle_programs_git nat false (JList [JInt 1; JInt 2]) 0%nat
  = (Ok tt, 0%nat, []) /\
  main repr_sample nat spawn_ok false
    (JDict [("programs", JDict [("git", JList [JInt 1; JInt 2])])]) 0%nat
  = (Ok tt, 0%nat, []) /\
  handle_system_defaults repr_sample nat spawn_ok false
    (JList [JInt 1; JInt 2]) 0%nat
  = (Raise (TypeError "Expected dict, got list"), 0%nat, []) /\
  handle_packages_homebrew repr_sample nat spawn_ok false
    (JList [JInt 1; JInt 2]) 0%nat
  = (Raise (TypeError "Expected dict, got list"), 0%nat, []).
Proof. repeat split. Qed.

(** ** The further properties at concrete configurations *)

Lemma root_must_be_mapping_witness :
  is_dict (JList [JInt 1]) = false /\
  main repr_sample nat spawn_ok false (JList [JInt 1]) 0%nat
  = (Raise (TypeError "Expected dict, got list"), 0%nat, []).
Proof.
  split; [reflexivity|].
  exact (root_must_be_mapping repr_sample nat spawn_ok false (JList [JInt 1])
           0%nat eq_refl).
Defined.

Lemma domain_handlers_read_one_key_witness :
  String.eqb "defaults" "hostname" = false /\
  handle_system repr_sample nat spawn_ok false
    (JDict [("hostname", JStr "mac");
            ("defaults", JDict defaults_example_items)]) 0%nat
  = handle_system repr_sample nat spawn_ok false
      (JDict [("defaults", JDict defaults_example_items)]) 0%nat.
Proof.
  split; [reflexivity|].
  exact (proj1 (domain_handlers_read_one_key repr_sample nat spawn_ok false
                  [] [("defaults", JDict defaults_example_items)]
                  "hostname" (JStr "mac") 0%nat) eq_refl).
Defined.

(** An explicit null where the taps should be. *)
Lemma homebrew_fields_are_validated_first_witness :
  is_list (field_or [("taps", JNull)] "taps" (JList [])) = false /\
  handle_packages_homebrew repr_sample nat spawn_ok false
    (JDict [("taps", JNull)]) 0%nat
  = (Raise (TypeError "Expected list, got NoneType"), 0%nat, []).
Proof.
  split; [reflexivity|].
  exact (proj1 (homebrew_fields_are_validated_first repr_sample nat spawn_ok
                  false [("taps", JNull)] 0%nat) eq_refl).
Defined.

Lemma homebrew_launches_upgrade_then_cleanup_witness :
  compile_brewfile repr_sample nat homebrew_example 0%nat
  = (Ok homebrew_example_manifest, 0%nat, []) /\
  launched
    (trace (handle_packages_homebrew repr_sample nat spawn_ok false
              homebrew_example 0%nat))
  = [brew_upgrade; brew_cleanup].
Proof.
  split; [reflexivity|].
  pose proof (homebrew_launches_upgrade_then_cleanup repr_sample nat spawn_ok
                homebrew_example homebrew_example_manifest 0%nat eq_refl)
    as H.
  cbv zeta in H. destruct H as (_ & H & _).
  exact (proj2 H eq_refl).
Defined.

(** A namespace with a sequence among its values, then a sound
    namespace: the run is the run over the first one alone. *)
Lemma namespaces_run_in_sequence_witness :
  result (handle_system_defaults repr_sample nat spawn_ok false
            (JDict defaults_unsupported_items) 0%nat)
  = Raise (TypeError "Unsupported value type: list") /\
  handle_system_defaults repr_sample nat spawn_ok false
    (JDict (defaults_unsupported_items
              ++ [("com.example.dock", JDict [("size", JInt 48)])])) 0%nat
  = handle_system_defaults repr_sample nat spawn_ok false
      (JDict defaults_unsupported_items) 0%nat.
Proof.
  split; [reflexivity|].
  exact (proj2 (namespaces_run_in_sequence repr_sample nat spawn_ok false
                  defaults_unsupported_items
                  [("com.example.dock", JDict [("size", JInt 48)])] 0%nat
                  eq_refl eq_refl)
           (TypeError "Unsupported value type: list") eq_refl).
Defined.

(** The second launch exits with status 1: two of the four entries are
    described and launched, the other two are not. *)
Lemma failing_launch_halts_the_loop_witness :
  spawn_cleanup_exit1 1%nat
    ["defaults"; "write"; "com.example.app"; "ratio"; "3.5"] None
  = (Exited 1, 2%nat) /\
  handle_system_defaults repr_sample nat spawn_cleanup_exit1 false
    (JDict defaults_example_items) 0%nat
  = (Raise (CalledProcessError 1
              ["defaults"; "write"; "com.example.app"; "ratio"; "3.5"]),
     2%nat,
     (applied repr_sample ("com.example.app", "flag", JBool true)
      ++ applied repr_sample ("com.example.app", "ratio", JFloat 3.5%float))%list).
Proof.
  split; [reflexivity|].
  refine (failing_launch_halts_the_loop repr_sample nat spawn_cleanup_exit1
            defaults_example_items
            [("com.example.app", "flag", JBool true)]
            [("com.example.dock", "size", JInt 48);
             ("com.example.dock", "side", JStr "left")]
            "com.example.app" "ratio" (JFloat 3.5%float)
            0%nat 1%nat 2%nat
            (applied repr_sample ("com.example.app", "flag", JBool true))
            1 eq_refl eq_refl eq_refl eq_refl eq_refl _).
  discriminate.
Defined.

Lemma defaults_trace_is_a_plan_prefix_witness :
  forallb is_dict (map snd defaults_unsupported_items) = true /\
  exists k : nat,
    (k <= List.length (entries_of defaults_unsupported_items))%nat /\
    forallb (fun e => supported (snd e))
      (firstn k (entries_of defaults_unsupported_items)) = true /\
    trace (handle_system_defaults repr_sample nat spawn_ok false
             (JDict defaults_unsupported_items) 0%nat)
    = plan_prefix repr_sample false k (entries_of defaults_unsupported_items) /\
    (result (handle_system_defaults repr_sample nat spawn_ok false
               (JDict defaults_unsupported_items) 0%nat) = Ok tt ->
     k = List.length (entries_of defaults_unsupported_items)).
Proof.
  split; [reflexivity|].
  exact (defaults_trace_is_a_plan_prefix repr_sample nat spawn_ok false
           defaults_unsupported_items 0%nat eq_refl).
Defined.

(** The system section is a non-empty sequence and the packages section a
    number: the error is that of the system section. *)
Lemma main_stops_at_the_first_failing_domain_witness :
  result (dispatch nat [("system", JList [JInt 1]); ("packages", JInt 3)]
            "system" (handle_system repr_sample nat spawn_ok false) 0%nat)
  = Raise (TypeError "Expected dict, got list") /\
  main repr_sample nat spawn_ok false
    (JDict [("system", JList [JInt 1]); ("packages", JInt 3)]) 0%nat
  = dispatch nat [("system", JList [JInt 1]); ("packages", JInt 3)]
      "system" (handle_system repr_sample nat spawn_ok false) 0%nat.
Proof.
  split; [reflexivity|].
  exact (proj1 (main_stops_at_the_first_failing_domain repr_sample nat
                  spawn_ok false
                  [("system", JList [JInt 1]); ("packages", JInt 3)] 0%nat
                  (TypeError "Expected dict, got list")) eq_refl).
Defined.

(** A homebrew mapping that only says that there are no taps. *)
Lemma empty_brewfile_is_still_applied_witness :
  field_or [("taps", JList [])] "taps" (JList []) = JList [] /\
  trace (handle_packages_homebrew repr_sample nat spawn_ok false
           (JDict [("taps", JList [])]) 0%nat)
  = [brewfile_report ""; Run brew_upgrade (Some "") true;
     Run brew_cleanup None false].
Proof.
  split; [reflexivity|].
  pose proof (empty_brewfile_is_still_applied repr_sample nat spawn_ok false
                [] [("taps", JList [])] 0%nat) as H.
  destruct H as (_ & H).
  destruct (H eq_refl eq_refl eq_refl eq_refl) as (_ & Happly).
  exact (proj2 (Happly spawn_ok_always_succeeds)).
Defined.

Lemma dry_run_is_an_exact_preview_witness :
  always_succeeds nat spawn_ok /\
  printed (trace (main repr_sample nat spawn_ok false config_homebrew_only
                    0%nat))
  = printed (trace (main repr_sample nat spawn_ok true config_homebrew_only
                      7%nat)).
Proof.
  split; [exact spawn_ok_always_succeeds|].
  exact (proj2 (dry_run_is_an_exact_preview repr_sample nat spawn_ok
                  config_homebrew_only 0%nat 7%nat spawn_ok_always_succeeds)).
Defined.
